(** * Baton: store, state machine, selector, method surface, handshake, cycle engine

    A shallow embedding of the Go packages [storage], [statemachine], [mcp],
    [audit] and [cycle], with the counting loop of the status page of [web],
    and the properties of the specification proved or refuted on it.

    Conventions of the embedding.
    - The SQLite database is a record of tables, each table the list of its
      rows in insertion (rowid) order.  [ORDER BY] is a stable insertion sort,
      so rows that tie keep their rowid order.
    - [time.Time] is an integer number of nanoseconds; [CURRENT_TIMESTAMP] and
      [time.Now()] are the [now] argument of the operation that reads them;
      the database compares timestamps as instants (the text encoding of the
      column is not modelled).
    - Go's [int] is a 64-bit integer carried in [Z]; the additions the code
      performs on stored data ([maxVersion + 1]) and on its counters wrap as
      the machine does.
    - A Go [error] is a value of [error]; a function returning [(T, error)]
      returns [result T]; a function that writes to the store also returns
      the store.  I/O failures of the database driver are not modelled.
    - [artifacts.meta] holds the JSON value that was marshalled into it.
    - The surrogate [id] column of [artifacts] and [audit_logs] (a fresh
      [uuid.New()] per row) is left out: no query selects on it. *)

From Stdlib Require Import String Ascii List ZArith Bool Lia.
From Stdlib Require Import Sorted Permutation Relations DecimalString.
From Stdlib Require OrderedTypeEx.
Import ListNotations.
Local Open Scope string_scope.
Local Open Scope Z_scope.

(** ** Errors and results *)

Inductive error : Type :=
| ErrNoRows                              (* sql.ErrNoRows of QueryRow(..).Scan *)
| ErrConstraint (what : string)          (* a table constraint refused an INSERT *)
| ErrCtx                                 (* ctx.Err() *)
| Errorf (msg : string)                  (* fmt.Errorf without %w *)
| Wrapf (msg : string) (cause : error).  (* fmt.Errorf("msg: %w", cause) *)

Inductive result (A : Type) : Type :=
| Ok (a : A)
| Err (e : error).
Arguments Ok {A} a.
Arguments Err {A} e.

Definition is_ok {A} (r : result A) : bool :=
  match r with Ok _ => true | Err _ => false end.

Definition result_map {A B} (f : A -> B) (r : result A) : result B :=
  match r with Ok a => Ok (f a) | Err e => Err e end.

(** Go's 64-bit [int]. *)
Definition int := Z.
Definition max_int : Z := 2 ^ 63 - 1.
Definition int_wrap (z : Z) : int := (z + 2 ^ 63) mod 2 ^ 64 - 2 ^ 63.

(** [time.Time], [time.Duration] in nanoseconds. *)
Definition Time := Z.
Definition Second : Z := 1000000000.
Definition Hour : Z := 3600 * Second.

(** [%d] of [fmt.Sprintf]. *)
Definition itoa (z : Z) : string := NilZero.string_of_int (Z.to_int z).

(** Stable insertion sort: the rows of an [ORDER BY], the slice of a
    [sort.Slice].  [less a b] says that [a] must come before [b]. *)
Fixpoint insert_by {A} (less : A -> A -> bool) (x : A) (l : list A) : list A :=
  match l with
  | [] => [x]
  | y :: l' => if less y x then y :: insert_by less x l' else x :: y :: l'
  end.

Definition sort_by {A} (less : A -> A -> bool) (l : list A) : list A :=
  fold_right (insert_by less) [] l.

(** A decoded JSON value ([interface{}] after [json.Unmarshal]); numbers are
    the integers. *)
#[local] Unset Elimination Schemes.
Inductive JSONValue : Type :=
| JNull
| JBool (b : bool)
| JNumber (z : Z)
| JString (s : string)
| JArray (l : list JSONValue)
| JObject (m : list (string * JSONValue)).
#[local] Set Elimination Schemes.

(** ** Package storage *)
Module storage.

(** [type State string] *)
Definition State := string.

Definition ReadyForPlan : State := "ready_for_plan".
Definition Planning : State := "planning".
Definition ReadyForImplementation : State := "ready_for_implementation".
Definition Implementing : State := "implementing".
Definition ReadyForCodeReview : State := "ready_for_code_review".
Definition Reviewing : State := "reviewing".
Definition ReadyForCommit : State := "ready_for_commit".
Definition NeedsFixes : State := "needs_fixes".
Definition Committing : State := "committing".
Definition Fixing : State := "fixing".
Definition Done : State := "DONE".

(** Lookup in a Go map literal with string keys, listed as the literal lists
    it (the keys of a literal are distinct). *)
Fixpoint assoc {V} (k : string) (m : list (string * V)) : option V :=
  match m with
  | [] => None
  | (k', v) :: m' => if String.eqb k' k then Some v else assoc k m'
  end.

Definition StateAliases : list (string * State) :=
  [ ("ready_for_implmentation", ReadyForImplementation);
    ("ready_for_code_revie", ReadyForCodeReview);
    ("need_fixes", NeedsFixes);
    ("commiting", Committing) ].

Definition NormalizeState (input : string) : State :=
  match assoc input StateAliases with
  | Some alias => alias
  | None => input
  end.

(** [json.RawMessage] columns that the code decodes with
    [json.Unmarshal(raw, &[]string)], carried as the outcome of that
    decoding: no bytes (a NULL or empty column, which the code does not
    decode), bytes that do not decode, or the decoded list. *)
Inductive RawMessage : Type :=
| RawEmpty
| RawMalformed
| RawStrings (l : list string).

Record Task := mkTask {
  ID : string;
  Title : string;
  Description : string;
  State_ : State;
  Priority : int;
  Owner : string;
  Tags : RawMessage;
  Dependencies : RawMessage;
  BlockedBy : RawMessage;
  CreatedAt : Time;
  UpdatedAt : Time
}.

Record Requirement := mkRequirement {
  rKey : string;
  rTitle : string;
  rText : string;
  rType : string
}.

Record Artifact := mkArtifact {
  aTaskID : string;
  aName : string;
  aVersion : int;
  aContent : string;
  aMeta : option JSONValue;
  aCreatedAt : Time
}.

Record AuditLog := mkAuditLog {
  lTaskID : string;
  lCycleID : string;
  lPrevState : string;
  lNextState : string;
  lActor : string;
  lSelectionReason : string;
  lInputsSummary : string;
  lOutputsSummary : string;
  lResult : string;
  lNote : string;
  lCreatedAt : Time
}.

Record TaskFilters := mkTaskFilters {
  fState : option State;
  fPriority : option int;
  fOwner : option string
}.

Record CycleResult := mkCycleResult {
  Success : bool;
  TaskID : string;
  PrevState : State;
  NextState : State;
  ArtifactsCreated : list string
}.

(** The database: tables [tasks], [requirements], [artifacts],
    [audit_logs]. *)
Record Store := mkStore {
  tasks : list Task;
  requirements : list Requirement;
  artifacts : list Artifact;
  audit_logs : list AuditLog
}.

Definition with_tasks (s : Store) (ts : list Task) : Store :=
  mkStore ts (requirements s) (artifacts s) (audit_logs s).
Definition with_artifacts (s : Store) (l : list Artifact) : Store :=
  mkStore (tasks s) (requirements s) l (audit_logs s).
Definition with_audit_logs (s : Store) (l : list AuditLog) : Store :=
  mkStore (tasks s) (requirements s) (artifacts s) l.

(** [SELECT ... FROM tasks WHERE id = ?] scanned by [QueryRow]. *)
Definition GetTask (s : Store) (id : string) : result Task :=
  match find (fun t => String.eqb (ID t) id) (tasks s) with
  | Some t => Ok t
  | None => Err ErrNoRows
  end.

Definition task_exists (s : Store) (id : string) : bool :=
  existsb (fun t => String.eqb (ID t) id) (tasks s).

Definition set_state (t : Task) (st : State) (now : Time) : Task :=
  mkTask (ID t) (Title t) (Description t) st (Priority t) (Owner t)
         (Tags t) (Dependencies t) (BlockedBy t) (CreatedAt t) now.

(** [UPDATE tasks SET state = ?, updated_at = CURRENT_TIMESTAMP WHERE id = ?]
    in a transaction.  The [note] argument is not used by the statement. *)
Definition UpdateTaskState (s : Store) (id : string) (state : State)
           (note : string) (now : Time) : result Store :=
  Ok (with_tasks s
        (map (fun t => if String.eqb (ID t) id then set_state t state now else t)
             (tasks s))).

Definition opt_match {A} (eqb : A -> A -> bool) (f : option A) (x : A) : bool :=
  match f with Some y => eqb x y | None => true end.

(** [ORDER BY priority DESC, updated_at ASC] *)
Definition tasks_order (a b : Task) : bool :=
  (Priority b <? Priority a)
  || ((Priority a =? Priority b) && (UpdatedAt a <? UpdatedAt b)).

Definition ListTasks (s : Store) (filters : TaskFilters) : result (list Task) :=
  Ok (sort_by tasks_order
        (filter (fun t => opt_match String.eqb (fState filters) (State_ t)
                          && opt_match Z.eqb (fPriority filters) (Priority t)
                          && opt_match String.eqb (fOwner filters) (Owner t))
                (tasks s))).

(** [ORDER BY key] *)
Definition ListRequirements (s : Store) (reqType : string)
  : result (list Requirement) :=
  Ok (sort_by (fun a b => String.ltb (rKey a) (rKey b))
        (filter (fun r => String.eqb reqType "" || String.eqb (rType r) reqType)
                (requirements s))).

Definition artifact_rows (s : Store) (taskID name : string) : list Artifact :=
  filter (fun a => String.eqb (aTaskID a) taskID && String.eqb (aName a) name)
         (artifacts s).

(** [SELECT COALESCE(MAX(version), 0) ... WHERE task_id = ? AND name = ?] *)
Definition max_version (s : Store) (taskID name : string) : int :=
  match map aVersion (artifact_rows s taskID name) with
  | [] => 0
  | v :: vs => fold_left Z.max vs v
  end.

(** The artifact is stamped with the time of the call and with the next
    version of [(task_id, name)], then inserted; the INSERT is refused when
    [task_id] names no task (FOREIGN KEY) or when the triple
    [(task_id, name, version)] is already there (UNIQUE).  The caller's
    struct is updated in place, so the stamped artifact is returned. *)
Definition UpsertArtifact (s : Store) (artifact : Artifact) (now : Time)
  : result (Artifact * Store) :=
  let maxVersion := max_version s (aTaskID artifact) (aName artifact) in
  let a := mkArtifact (aTaskID artifact) (aName artifact)
                      (int_wrap (maxVersion + 1))
                      (aContent artifact) (aMeta artifact) now in
  if negb (task_exists s (aTaskID a)) then
    Err (ErrConstraint "FOREIGN KEY constraint failed")
  else if existsb (fun b => aVersion b =? aVersion a)
                  (artifact_rows s (aTaskID a) (aName a)) then
    Err (ErrConstraint "UNIQUE constraint failed")
  else Ok (a, with_artifacts s (artifacts s ++ [a])).

(** [version = 0]: [ORDER BY version DESC LIMIT 1]; otherwise the row of
    that version. *)
Definition GetArtifact (s : Store) (taskID name : string) (version : int)
  : result Artifact :=
  let rows := artifact_rows s taskID name in
  let hit :=
    if version =? 0
    then hd_error (sort_by (fun a b => aVersion b <? aVersion a) rows)
    else find (fun a => aVersion a =? version) rows in
  match hit with
  | Some a => Ok a
  | None => Err ErrNoRows
  end.

(** [WHERE task_id = ? ORDER BY name, version DESC] *)
Definition ListArtifacts (s : Store) (taskID : string) : result (list Artifact) :=
  Ok (sort_by (fun a b => String.ltb (aName a) (aName b)
                          || (String.eqb (aName a) (aName b)
                              && (aVersion b <? aVersion a)))
        (filter (fun a => String.eqb (aTaskID a) taskID) (artifacts s))).

(** The row is stamped with the time of the call and inserted; the INSERT is
    refused when [task_id] names no task (FOREIGN KEY). *)
Definition CreateAuditLog (s : Store) (log : AuditLog) (now : Time)
  : result Store :=
  if negb (task_exists s (lTaskID log)) then
    Err (ErrConstraint "FOREIGN KEY constraint failed")
  else
    let l := mkAuditLog (lTaskID log) (lCycleID log) (lPrevState log)
               (lNextState log) (lActor log) (lSelectionReason log)
               (lInputsSummary log) (lOutputsSummary log) (lResult log)
               (lNote log) now in
    Ok (with_audit_logs s (audit_logs s ++ [l])).



End storage.

(** ** Package config *)
Module config.

(** Modelled from the spec: the struct declarations of package [config]
    are not among the sources; the records below carry the options of
    section 6 that the embedded code reads, under the field names the code
    and [getDefaultConfig] use.  [Agents] is a Go map; it is listed in the
    order its range loop happens to visit it. *)
Record SelectionConfig := mkSelectionConfig {
  Algorithm : string;
  DependencyStrict : bool;
  PreferLeafTasks : bool;
  TieBreaker : string
}.

(** Modelled from the spec: [config.CompletionConfig] is not among the
    sources; the options [completion.*] of section 6 that the handshake
    reads. *)
Record CompletionConfig := mkCompletionConfig {
  MaxRetries : int;
  RetryDelaySeconds : int;
  RequireExplicitStateUpdate : bool;
  FollowUpTemplate : string
}.

(** Modelled from the spec: [config.Agent] is not among the sources; the
    role table of section 4.8, with the fields the engine reads. *)
Record Agent := mkAgent {
  Name : string;
  Role : string;
  AllowedStates : list string
}.

(** Modelled from the spec: [config.Config] is not among the sources; the
    configuration record of section 6, with the fields the engine reads. *)
Record Config := mkConfig {
  PlanFile : string;
  Agents : list (string * Agent);
  Selection : SelectionConfig;
  Completion : CompletionConfig;
  CycleTimeboxSeconds : int
}.

End config.

(** ** A state and error monad over the store *)

Definition M (A : Type) : Type := storage.Store -> result A * storage.Store.

Definition ret {A} (a : A) : M A := fun s => (Ok a, s).
Definition fail {A} (e : error) : M A := fun s => (Err e, s).
Definition bind {A B} (m : M A) (k : A -> M B) : M B :=
  fun s => match m s with
           | (Ok a, s') => k a s'
           | (Err e, s') => (Err e, s')
           end.
(** A query: the store is read, not written. *)
Definition query {A} (f : storage.Store -> result A) : M A := fun s => (f s, s).
(** A statement: the store is replaced when it succeeds. *)
Definition exec (f : storage.Store -> result storage.Store) : M unit :=
  fun s => match f s with
           | Ok s' => (Ok tt, s')
           | Err e => (Err e, s)
           end.
(** [if err != nil { return fmt.Errorf("msg: %w", err) }] *)
Definition wrapf {A} (msg : string) (m : M A) : M A :=
  fun s => match m s with
           | (Ok a, s') => (Ok a, s')
           | (Err e, s') => (Err (Wrapf msg e), s')
           end.
Definition wrapr {A} (msg : string) (r : result A) : result A :=
  match r with Ok a => Ok a | Err e => Err (Wrapf msg e) end.

Declare Scope store_scope.
Delimit Scope store_scope with store.
Notation "x <- m ;; k" := (bind m (fun x => k))
  (at level 61, m at next level, right associativity) : store_scope.
Notation "m ;;; k" := (bind m (fun _ => k))
  (at level 61, right associativity) : store_scope.

(** ** Package statemachine *)
Module statemachine.
Import storage.

Definition ValidTransitions : list (State * list State) :=
  [ (ReadyForPlan, [Planning]);
    (Planning, [ReadyForImplementation; NeedsFixes]);
    (ReadyForImplementation, [Implementing]);
    (Implementing, [ReadyForCodeReview; NeedsFixes]);
    (ReadyForCodeReview, [Reviewing]);
    (Reviewing, [ReadyForCommit; NeedsFixes]);
    (ReadyForCommit, [Committing]);
    (Committing, [Done; NeedsFixes]);
    (NeedsFixes, [Fixing]);
    (Fixing, [ReadyForCodeReview; NeedsFixes]);
    (Done, []) ].

(** [%v] of a slice of states. *)
Definition show_states (l : list State) : string :=
  "[" ++ String.concat " " l ++ "]".

Definition ValidateTransition (from to : State) : result unit :=
  let from := NormalizeState from in
  let to := NormalizeState to in
  match assoc from ValidTransitions with
  | None => Err (Errorf ("invalid source state: " ++ from))
  | Some allowedStates =>
      if existsb (fun allowedState => String.eqb to allowedState) allowedStates
      then Ok tt
      else Err (Errorf ("invalid transition from " ++ from ++ " to " ++ to
                        ++ ". Allowed transitions: " ++ show_states allowedStates))
  end.

Definition GetAllowedTransitions (from : State) : result (list State) :=
  let from := NormalizeState from in
  match assoc from ValidTransitions with
  | None => Err (Errorf ("invalid state: " ++ from))
  | Some allowedStates => Ok allowedStates
  end.

Definition IsTerminalState (state : State) : bool :=
  let state := NormalizeState state in
  match assoc state ValidTransitions with
  | Some allowedStates => Nat.eqb (List.length allowedStates) 0
  | None => false
  end.

(** The keys of [ValidTransitions] (a Go map: the order is that of the
    literal). *)
Definition GetAllStates : list State := map fst ValidTransitions.

(** *** TransitionValidator *)

Definition requiredHandovers : list (string * list string) :=
  [ ("planning->ready_for_implementation", ["implementation_plan"]);
    ("implementing->ready_for_code_review", ["change_summary"]);
    ("reviewing->ready_for_commit", ["review_findings"]);
    ("reviewing->needs_fixes", ["review_findings"]);
    ("fixing->ready_for_code_review", ["fix_plan"]);
    ("committing->DONE", ["commit_summary"]) ].

Definition getRequiredHandovers (from to : State) : list string :=
  let key := from ++ "->" ++ to in
  match assoc key requiredHandovers with
  | Some handovers => handovers
  | None => []
  end.

Definition workStates : list State :=
  [Planning; Implementing; Reviewing; Committing].

(** The loop over the decoded dependencies, stopping at the first that is
    missing or not [DONE]. *)
Fixpoint check_dependencies (s : Store) (dependencies : list string)
  : result unit :=
  match dependencies with
  | [] => Ok tt
  | depID :: rest =>
      match GetTask s depID with
      | Err e => Err (Wrapf ("dependency task " ++ depID ++ " not found") e)
      | Ok depTask =>
          if negb (String.eqb (State_ depTask) Done)
          then Err (Errorf ("dependency task " ++ depID ++ " (" ++ Title depTask
                            ++ ") is not complete (current state: "
                            ++ State_ depTask ++ ")"))
          else check_dependencies s rest
      end
  end.

Definition validateDependencies (s : Store) (task : Task) (newState : State)
  : result unit :=
  let isWorkState := existsb (fun state => String.eqb newState state) workStates in
  if negb isWorkState then Ok tt
  else
    match Dependencies task with
    | RawEmpty => check_dependencies s []
    | RawMalformed => Err (Wrapf "failed to parse dependencies" (Errorf "json"))
    | RawStrings dependencies => check_dependencies s dependencies
    end.

Fixpoint check_handovers (s : Store) (task : Task) (newState : State)
         (handovers : list string) : result unit :=
  match handovers with
  | [] => Ok tt
  | handover :: rest =>
      match GetArtifact s (ID task) handover 0 with
      | Err _ => Err (Errorf ("required handover artifact '" ++ handover
                              ++ "' not found for transition from "
                              ++ State_ task ++ " to " ++ newState))
      | Ok artifact =>
          if String.eqb (aContent artifact) ""
          then Err (Errorf ("required handover artifact '" ++ handover
                            ++ "' exists but is empty"))
          else check_handovers s task newState rest
      end
  end.

Definition validateRequiredHandovers (s : Store) (task : Task) (newState : State)
  : result unit :=
  check_handovers s task newState (getRequiredHandovers (State_ task) newState).

Definition ValidateAndTransition (taskID : string) (newState : State)
           (note : string) (now : Time) : M unit :=
  (task <- wrapf ("failed to get task " ++ taskID) (query (fun s => GetTask s taskID)) ;;
   wrapf "transition validation failed"
     (query (fun _ => ValidateTransition (State_ task) newState)) ;;;
   wrapf "dependency validation failed"
     (query (fun s => validateDependencies s task newState)) ;;;
   wrapf "handover validation failed"
     (query (fun s => validateRequiredHandovers s task newState)) ;;;
   exec (fun s => UpdateTaskState s taskID newState note now))%store.

End statemachine.

(** ** Package statemachine: the selector *)
Module selection.
Import storage config statemachine.

Record SelectionResult := mkSelectionResult {
  Task_ : Task;
  Reason : string
}.

Record taskCandidate := mkTaskCandidate {
  cTask : Task;
  Blocked : bool;
  BlockReason : string;
  IsLeaf : bool;
  cPriority : int
}.

(** The loop of [isBlockedByDependencies] over the decoded dependencies. *)
Fixpoint blocked_by (s : Store) (dependencies : list string) : bool * string :=
  match dependencies with
  | [] => (false, "")
  | depID :: rest =>
      match GetTask s depID with
      | Err _ => (true, "dependency " ++ depID ++ " not found")
      | Ok depTask =>
          if negb (String.eqb (State_ depTask) Done)
          then (true, "dependency " ++ depID ++ " (" ++ Title depTask
                      ++ ") not complete")
          else blocked_by s rest
      end
  end.

Definition isBlockedByDependencies (cfg : SelectionConfig) (s : Store)
           (task : Task) : bool * string :=
  if negb (DependencyStrict cfg) then (false, "")
  else
    match Dependencies task with
    | RawEmpty => blocked_by s []
    | RawMalformed => (true, "invalid dependencies JSON: json")
    | RawStrings dependencies => blocked_by s dependencies
    end.

Definition hasUnfinishedDependents (s : Store) (task : Task) : result bool :=
  match ListTasks s (mkTaskFilters None None None) with
  | Err e => Err e
  | Ok allTasks =>
      Ok (existsb
            (fun otherTask =>
               if String.eqb (ID otherTask) (ID task)
                  || String.eqb (State_ otherTask) Done
               then false
               else match Dependencies otherTask with
                    | RawStrings dependencies =>
                        existsb (fun depID => String.eqb depID (ID task))
                                dependencies
                    | _ => false
                    end)
            allTasks)
  end.

(** The comparison function handed to [sort.Slice]. *)
Definition less (cfg : SelectionConfig) (a b : taskCandidate) : bool :=
  if negb (cPriority a =? cPriority b) then cPriority b <? cPriority a
  else if PreferLeafTasks cfg && negb (Bool.eqb (IsLeaf a) (IsLeaf b))
  then IsLeaf a
  else if String.eqb (TieBreaker cfg) "oldest_updated"
  then UpdatedAt (cTask a) <? UpdatedAt (cTask b)
  else if String.eqb (TieBreaker cfg) "newest_created"
  then CreatedAt (cTask b) <? CreatedAt (cTask a)
  else if String.eqb (TieBreaker cfg) "alphabetical"
  then String.ltb (Title (cTask a)) (Title (cTask b))
  else UpdatedAt (cTask a) <? UpdatedAt (cTask b).

Definition sortCandidates (cfg : SelectionConfig) (candidates : list taskCandidate)
  : list taskCandidate :=
  sort_by (less cfg) candidates.

Definition dep_count (task : Task) : int :=
  match Dependencies task with
  | RawStrings deps => Z.of_nat (List.length deps)
  | _ => 0
  end.

(** [int(age.Hours())] and [int(age.Hours()/24)] truncate toward zero. *)
Definition buildSelectionReason (cfg : SelectionConfig) (now : Time)
           (selected : taskCandidate) (totalTasks availableTasks : nat) : string :=
  let reason := "Selected from " ++ itoa (Z.of_nat totalTasks)
                ++ " total tasks (" ++ itoa (Z.of_nat availableTasks)
                ++ " available)" in
  let priority :=
    if 5 <? cPriority selected
    then ["high priority (" ++ itoa (cPriority selected) ++ ")"]
    else if cPriority selected =? 5
    then ["normal priority (" ++ itoa (cPriority selected) ++ ")"]
    else ["low priority (" ++ itoa (cPriority selected) ++ ")"] in
  let leaf :=
    if PreferLeafTasks cfg && IsLeaf selected
    then ["leaf task (no dependents)"] else [] in
  let depCount := dep_count (cTask selected) in
  let deps :=
    if 0 <? depCount
    then [itoa depCount ++ " dependencies satisfied"]
    else ["no dependencies"] in
  let tie :=
    if String.eqb (TieBreaker cfg) "oldest_updated" then
      let age := now - UpdatedAt (cTask selected) in
      if 24 * Hour <? age
      then ["oldest update (" ++ itoa (Z.quot age (24 * Hour)) ++ "d ago)"]
      else ["oldest update (" ++ itoa (Z.quot age Hour) ++ "h ago)"]
    else [] in
  reason ++ ": " ++ String.concat ", " (priority ++ leaf ++ deps ++ tie).

(** The first loop of [selectByPriorityAndDependency]: one candidate per
    task, or the first error of [hasUnfinishedDependents]. *)
Fixpoint classify (cfg : SelectionConfig) (s : Store) (tasks : list Task)
  : result (list taskCandidate) :=
  match tasks with
  | [] => Ok []
  | task :: rest =>
      let (blocked, reason) := isBlockedByDependencies cfg s task in
      match hasUnfinishedDependents s task with
      | Err e => Err e
      | Ok hasDependent =>
          match classify cfg s rest with
          | Err e => Err e
          | Ok candidates =>
              Ok (mkTaskCandidate task blocked reason (negb hasDependent)
                                  (Priority task) :: candidates)
          end
      end
  end.

Definition selectByPriorityAndDependency (cfg : SelectionConfig) (s : Store)
           (now : Time) (tasks : list Task) : result SelectionResult :=
  match classify cfg s tasks with
  | Err e => Err e
  | Ok candidates =>
      let availableCandidates := filter (fun c => negb (Blocked c)) candidates in
      match sortCandidates cfg availableCandidates with
      | [] => Err (Errorf "no unblocked tasks available")
      | selected :: _ =>
          Ok (mkSelectionResult (cTask selected)
                (buildSelectionReason cfg now selected (List.length candidates)
                                      (List.length availableCandidates)))
      end
  end.

Definition getSelectableTasks (s : Store) : result (list Task) :=
  match ListTasks s (mkTaskFilters None None None) with
  | Err e => Err e
  | Ok allTasks => Ok (filter (fun task => negb (IsTerminalState (State_ task))) allTasks)
  end.

Definition SelectNext (cfg : SelectionConfig) (s : Store) (now : Time)
  : result SelectionResult :=
  match getSelectableTasks s with
  | Err e => Err (Wrapf "failed to get selectable tasks" e)
  | Ok tasks =>
      if Nat.eqb (List.length tasks) 0
      then Err (Errorf "no selectable tasks available")
      else if String.eqb (Algorithm cfg) "priority_dependency"
      then selectByPriorityAndDependency cfg s now tasks
      else Err (Errorf ("unknown selection algorithm: " ++ Algorithm cfg))
  end.

End selection.

(** [err.Error()] *)
Fixpoint error_string (e : error) : string :=
  match e with
  | ErrNoRows => "sql: no rows in result set"
  | ErrConstraint what => what
  | ErrCtx => "context deadline exceeded"
  | Errorf msg => msg
  | Wrapf msg cause => msg ++ ": " ++ error_string cause
  end.

(** ** Package mcp *)
Module mcp.
Import storage config statemachine selection.

Record JSONRPCRequest := mkRequest {
  Method : string;
  Params : JSONValue;
  rID : JSONValue
}.

Record JSONRPCError := mkError {
  Code : int;
  Message : string;
  Data : JSONValue
}.

(** What a handler puts in [Result]. *)
Inductive Payload : Type :=
| PNext (task : Task) (arts : list Artifact) (selection_reason : string)
| PTask (task : Task) (arts : list Artifact)
| PStateUpdated (task_id : string) (state : State)
| PNoteAppended (task_id : string)
| PTasks (l : list Task)
| PUpserted (a : Artifact)
| PArtifact (a : Artifact)
| PArtifacts (l : list Artifact)
| PRequirements (l : list Requirement)
| PPlan (content path : string)
| PInitialize
| PPing.

Record JSONRPCResponse := mkResponse {
  Result : option Payload;
  Error : option JSONRPCError;
  ID : JSONValue
}.

Definition InvalidRequest : int := -32600.
Definition MethodNotFound : int := -32601.
Definition InvalidParams : int := -32602.
Definition InternalError : int := -32603.

(** MCP-specific error codes *)
Definition ResourceNotFound : int := -32002.
Definition ToolNotFound : int := -32001.

Definition NewJSONRPCResponse (id : JSONValue) (result : Payload) : JSONRPCResponse :=
  mkResponse (Some result) None id.

Definition NewJSONRPCError (id : JSONValue) (code : int) (message : string)
           (data : JSONValue) : JSONRPCResponse :=
  mkResponse None (Some (mkError code message data)) id.

Definition GetParams (r : JSONRPCRequest) : result (list (string * JSONValue)) :=
  match Params r with
  | JObject params => Ok params
  | _ => Err (Errorf "params is not an object")
  end.

Definition GetStringParam (r : JSONRPCRequest) (name : string) : result string :=
  match Params r with
  | JObject params =>
      match assoc name params with
      | None => Err (Errorf ("parameter '" ++ name ++ "' not found"))
      | Some (JString str) => Ok str
      | Some _ => Err (Errorf ("parameter '" ++ name ++ "' is not a string"))
      end
  | _ => Err (Errorf "params is not an object")
  end.

Definition GetIntParam (r : JSONRPCRequest) (name : string) : result int :=
  match Params r with
  | JObject params =>
      match assoc name params with
      | None => Err (Errorf ("parameter '" ++ name ++ "' not found"))
      | Some (JNumber v) => Ok v
      | Some _ => Err (Errorf ("parameter '" ++ name ++ "' is not a number"))
      end
  | _ => Err (Errorf "params is not an object")
  end.

Definition GetOptionalStringParam (r : JSONRPCRequest) (name : string)
  : string * bool :=
  match Params r with
  | JObject params =>
      match assoc name params with
      | Some (JString str) => (str, true)
      | _ => ("", false)
      end
  | _ => ("", false)
  end.

(** A handler answers a request and may write to the store. *)
Definition Handler := Store -> JSONRPCResponse * Store.

Definition task_id_data (taskID : string) : JSONValue :=
  JObject [("task_id", JString taskID)].

(** *** TaskHandler *)
Module TaskHandler.

Definition GetNext (cfg : SelectionConfig) (now : Time) (req : JSONRPCRequest)
  : Handler := fun s =>
  match SelectNext cfg s now with
  | Err err => (NewJSONRPCError (rID req) InternalError
                  "Failed to select next task" (JString (error_string err)), s)
  | Ok result =>
      match ListArtifacts s (storage.ID (Task_ result)) with
      | Err err => (NewJSONRPCError (rID req) InternalError
                      "Failed to get task artifacts" (JString (error_string err)), s)
      | Ok artifacts =>
          (NewJSONRPCResponse (rID req) (PNext (Task_ result) artifacts (Reason result)), s)
      end
  end.

Definition Get (req : JSONRPCRequest) : Handler := fun s =>
  match GetStringParam req "task_id" with
  | Err _ => (NewJSONRPCError (rID req) InvalidParams "Missing task_id parameter" JNull, s)
  | Ok taskID =>
      match GetTask s taskID with
      | Err _ => (NewJSONRPCError (rID req) ResourceNotFound "Task not found"
                    (task_id_data taskID), s)
      | Ok task =>
          match ListArtifacts s (storage.ID task) with
          | Err err => (NewJSONRPCError (rID req) InternalError
                          "Failed to get task artifacts" (JString (error_string err)), s)
          | Ok artifacts => (NewJSONRPCResponse (rID req) (PTask task artifacts), s)
          end
      end
  end.

Definition UpdateState (now : Time) (req : JSONRPCRequest) : Handler := fun s =>
  match GetStringParam req "task_id" with
  | Err _ => (NewJSONRPCError (rID req) InvalidParams "Missing task_id parameter" JNull, s)
  | Ok taskID =>
      match GetStringParam req "state" with
      | Err _ => (NewJSONRPCError (rID req) InvalidParams "Missing state parameter" JNull, s)
      | Ok stateStr =>
          let (note, _) := GetOptionalStringParam req "note" in
          let newState := NormalizeState stateStr in
          match ValidateAndTransition taskID newState note now s with
          | (Err err, s') =>
              (NewJSONRPCError (rID req) InvalidParams "State transition failed"
                 (JString (error_string err)), s')
          | (Ok _, s') =>
              (NewJSONRPCResponse (rID req) (PStateUpdated taskID newState), s')
          end
      end
  end.

Definition AppendNote (now : Time) (req : JSONRPCRequest) : Handler := fun s =>
  match GetStringParam req "task_id" with
  | Err _ => (NewJSONRPCError (rID req) InvalidParams "Missing task_id parameter" JNull, s)
  | Ok taskID =>
      match GetStringParam req "note" with
      | Err _ => (NewJSONRPCError (rID req) InvalidParams "Missing note parameter" JNull, s)
      | Ok note =>
          match GetTask s taskID with
          | Err _ => (NewJSONRPCError (rID req) ResourceNotFound "Task not found"
                        (task_id_data taskID), s)
          | Ok task =>
              match UpdateTaskState s taskID (State_ task) note now with
              | Err err => (NewJSONRPCError (rID req) InternalError
                              "Failed to append note" (JString (error_string err)), s)
              | Ok s' => (NewJSONRPCResponse (rID req) (PNoteAppended taskID), s')
              end
          end
      end
  end.

Definition List (req : JSONRPCRequest) : Handler := fun s =>
  match GetParams req with
  | Err _ => (NewJSONRPCError (rID req) InvalidParams "Invalid parameters" JNull, s)
  | Ok params =>
      let fstate := match assoc "state" params with
                    | Some (JString stateStr) => Some (NormalizeState stateStr)
                    | _ => None
                    end in
      let fpriority := match assoc "priority" params with
                       | Some (JNumber priority) => Some priority
                       | _ => None
                       end in
      let fowner := match assoc "owner" params with
                    | Some (JString owner) => Some owner
                    | _ => None
                    end in
      match ListTasks s (mkTaskFilters fstate fpriority fowner) with
      | Err err => (NewJSONRPCError (rID req) InternalError "Failed to list tasks"
                      (JString (error_string err)), s)
      | Ok tasks => (NewJSONRPCResponse (rID req) (PTasks tasks), s)
      end
  end.

End TaskHandler.

(** *** ArtifactHandler *)
Module ArtifactHandler.

Definition Upsert (now : Time) (req : JSONRPCRequest) : Handler := fun s =>
  match GetStringParam req "task_id" with
  | Err _ => (NewJSONRPCError (rID req) InvalidParams "Missing task_id parameter" JNull, s)
  | Ok taskID =>
      match GetStringParam req "name" with
      | Err _ => (NewJSONRPCError (rID req) InvalidParams "Missing name parameter" JNull, s)
      | Ok name =>
          match GetStringParam req "content" with
          | Err _ => (NewJSONRPCError (rID req) InvalidParams
                        "Missing content parameter" JNull, s)
          | Ok content =>
              let meta := match GetParams req with
                          | Ok params => assoc "meta" params
                          | Err _ => None
                          end in
              let artifact := mkArtifact taskID name 0 content meta 0 in
              match UpsertArtifact s artifact now with
              | Err err => (NewJSONRPCError (rID req) InternalError
                              "Failed to upsert artifact" (JString (error_string err)), s)
              | Ok (artifact', s') =>
                  (NewJSONRPCResponse (rID req) (PUpserted artifact'), s')
              end
          end
      end
  end.

Definition Get (req : JSONRPCRequest) : Handler := fun s =>
  match GetStringParam req "task_id" with
  | Err _ => (NewJSONRPCError (rID req) InvalidParams "Missing task_id parameter" JNull, s)
  | Ok taskID =>
      match GetStringParam req "name" with
      | Err _ => (NewJSONRPCError (rID req) InvalidParams "Missing name parameter" JNull, s)
      | Ok name =>
          let version := match GetIntParam req "version" with
                         | Ok v => v
                         | Err _ => 0
                         end in
          match GetArtifact s taskID name version with
          | Err _ => (NewJSONRPCError (rID req) ResourceNotFound "Artifact not found"
                        (JObject [("task_id", JString taskID);
                                  ("name", JString name);
                                  ("version", JNumber version)]), s)
          | Ok artifact => (NewJSONRPCResponse (rID req) (PArtifact artifact), s)
          end
      end
  end.

Definition List (req : JSONRPCRequest) : Handler := fun s =>
  match GetStringParam req "task_id" with
  | Err _ => (NewJSONRPCError (rID req) InvalidParams "Missing task_id parameter" JNull, s)
  | Ok taskID =>
      match ListArtifacts s taskID with
      | Err err => (NewJSONRPCError (rID req) InternalError "Failed to list artifacts"
                      (JString (error_string err)), s)
      | Ok artifacts => (NewJSONRPCResponse (rID req) (PArtifacts artifacts), s)
      end
  end.

End ArtifactHandler.

(** *** RequirementHandler *)
Module RequirementHandler.

Definition List (req : JSONRPCRequest) : Handler := fun s =>
  match GetParams req with
  | Err _ => (NewJSONRPCError (rID req) InvalidParams "Invalid parameters" JNull, s)
  | Ok params =>
      let reqType := match assoc "type" params with
                     | Some (JString t) => t
                     | _ => ""
                     end in
      match ListRequirements s reqType with
      | Err err => (NewJSONRPCError (rID req) InternalError
                      "Failed to list requirements" (JString (error_string err)), s)
      | Ok requirements => (NewJSONRPCResponse (rID req) (PRequirements requirements), s)
      end
  end.

End RequirementHandler.

(** *** PlanHandler: [plan] is the content of the plan file, when there is
    one. *)
Module PlanHandler.

Definition Read (planFile : string) (plan : option string) (req : JSONRPCRequest)
  : Handler := fun s =>
  match plan with
  | None => (NewJSONRPCError (rID req) ResourceNotFound "Plan file not found"
               (JObject [("path", JString planFile)]), s)
  | Some content => (NewJSONRPCResponse (rID req) (PPlan content planFile), s)
  end.

End PlanHandler.

(** *** Server *)

Definition handleInitialize (req : JSONRPCRequest) : Handler := fun s =>
  match GetParams req with
  | Err _ => (NewJSONRPCError (rID req) InvalidParams
                "Invalid initialize parameters" JNull, s)
  | Ok _ => (NewJSONRPCResponse (rID req) PInitialize, s)
  end.

Definition handlePing (req : JSONRPCRequest) : Handler := fun s =>
  (NewJSONRPCResponse (rID req) PPing, s).

(** The table of [registerHandlers]. *)
Definition handlers (cfg : Config) (plan : option string) (now : Time)
  : list (string * (JSONRPCRequest -> Handler)) :=
  [ ("baton.tasks.get_next", TaskHandler.GetNext (Selection cfg) now);
    ("baton.tasks.get", TaskHandler.Get);
    ("baton.tasks.update_state", TaskHandler.UpdateState now);
    ("baton.tasks.append_note", TaskHandler.AppendNote now);
    ("baton.tasks.list", TaskHandler.List);
    ("baton.artifacts.upsert", ArtifactHandler.Upsert now);
    ("baton.artifacts.get", ArtifactHandler.Get);
    ("baton.artifacts.list", ArtifactHandler.List);
    ("baton.requirements.list", RequirementHandler.List);
    ("baton.plan.read", PlanHandler.Read (PlanFile cfg) plan);
    ("initialize", handleInitialize);
    ("ping", handlePing) ].

Definition handleRequest (cfg : Config) (plan : option string) (now : Time)
           (req : JSONRPCRequest) : Handler := fun s =>
  match assoc (Method req) (handlers cfg plan now) with
  | None => (NewJSONRPCError (rID req) MethodNotFound
               ("Method not found: " ++ Method req) JNull, s)
  | Some handler => handler req s
  end.

(** The requests an agent sends while it runs, each with the time at which
    the server handles it. *)
Fixpoint serve (cfg : Config) (plan : option string)
         (calls : list (Time * JSONRPCRequest)) (s : Store)
  : list JSONRPCResponse * Store :=
  match calls with
  | [] => ([], s)
  | (now, req) :: rest =>
      let (resp, s') := handleRequest cfg plan now req s in
      let (resps, s'') := serve cfg plan rest s' in
      (resp :: resps, s'')
  end.

End mcp.

(** ** Package audit *)
Module audit.
Import storage.

Definition LogCycle (entry : AuditLog) (now : Time) : M unit :=
  exec (fun s => CreateAuditLog s entry now).


End audit.

(** ** Package llm: the external runner *)
Module llm.

Record Response := mkResponse {
  Success : bool;
  Content : string
}.

(** One run of the external agent: the requests it sends to the method
    surface while it runs, and what [Execute] returns when it ends. *)
Record Run := mkRun {
  calls : list (Time * mcp.JSONRPCRequest);
  outcome : result Response
}.

(** [Execute(ctx, prompt, agentID)] *)
Definition Client := string -> string -> Run.

End llm.

(** ** Package cycle *)
Module cycle.
Import storage config statemachine selection.

Record HandshakeResult := mkHandshakeResult {
  hSuccess : bool;
  FinalState : State;
  hArtifactsCreated : list string;
  FollowUps : list string;
  Note : string
}.

(** [ctx k]: the context is cancelled before the delay that precedes retry
    [k] has elapsed. *)
Definition Context := nat -> bool.

(** The two definitions of the required-handover map: this is the copy of
    handshake.go. *)
Definition getRequiredHandovers (from to : State) : list string :=
  let key := from ++ "->" ++ to in
  match assoc key
          [ ("planning->ready_for_implementation", ["implementation_plan"]);
            ("implementing->ready_for_code_review", ["change_summary"]);
            ("reviewing->ready_for_commit", ["review_findings"]);
            ("reviewing->needs_fixes", ["review_findings"]);
            ("fixing->ready_for_code_review", ["fix_plan"]);
            ("committing->DONE", ["commit_summary"]) ] with
  | Some handovers => handovers
  | None => []
  end.



(** The retry loop of [enforceHandshake], [n] iterations from index
    [retry] on.  The boolean tells whether the loop returned from inside
    (the state was seen to differ) or ran to its end. *)
Fixpoint follow_up_loop (cfg : CompletionConfig) (ctx : Context)
         (taskID : string) (initialState : State)
         (n retry : nat) (result : HandshakeResult) : M (HandshakeResult * bool) :=
  match n with
  | O => ret (result, false)
  | S n' =>
      if Nat.ltb 0 retry && ctx retry then fail ErrCtx
      else
        (task <- wrapf "failed to get task during handshake"
                   (query (fun s => GetTask s taskID)) ;;
         if negb (String.eqb (State_ task) initialState)
         then ret (mkHandshakeResult true (State_ task)
                     (hArtifactsCreated result) (FollowUps result)
                     ("Task state updated after follow-up "
                      ++ itoa (Z.of_nat retry + 1)), true)
         else follow_up_loop cfg ctx taskID initialState n' (S retry)
                (mkHandshakeResult (hSuccess result) (FinalState result)
                   (hArtifactsCreated result)
                   (FollowUps result ++ [FollowUpTemplate cfg])
                   (Note result)))%store
  end.

Definition enforceHandshake (cfg : CompletionConfig) (ctx : Context)
           (taskID : string) (initialState : State) (llmResponse : llm.Response)
           (now : Time) : M HandshakeResult :=
  (r <- follow_up_loop cfg ctx taskID initialState
          (Z.to_nat (MaxRetries cfg)) O
          (mkHandshakeResult false initialState [] [] "") ;;
   let (result, returned) := r in
   if returned then ret result
   else if RequireExplicitStateUpdate cfg then
     let note := "Completion handshake failed after " ++ itoa (MaxRetries cfg)
                 ++ " retries. Agent did not update task state." in
     wrapf "failed to set task to needs_fixes"
       (exec (fun s => UpdateTaskState s taskID NeedsFixes note now)) ;;;
     ret (mkHandshakeResult (hSuccess result) NeedsFixes
            (hArtifactsCreated result) (FollowUps result) note)
   else ret result)%store.

Definition Enforce (cfg : CompletionConfig) (ctx : Context) (taskID : string)
           (llmResponse : llm.Response) (now : Time) : M HandshakeResult :=
  (task <- wrapf "failed to get task" (query (fun s => GetTask s taskID)) ;;
   let initialState := State_ task in
   updatedTask <- wrapf "failed to get updated task"
                    (query (fun s => GetTask s taskID)) ;;
   if negb (String.eqb (State_ updatedTask) initialState) then
     fun s =>
       let created :=
         match ListArtifacts s taskID with
         | Ok artifacts =>
             map aName
                 (filter (fun artifact => now - aCreatedAt artifact <? 30 * Second)
                         artifacts)
         | Err _ => []
         end in
       (Ok (mkHandshakeResult true (State_ updatedTask) created []
              "Task state successfully updated"), s)
   else enforceHandshake cfg ctx taskID initialState llmResponse now)%store.

Fixpoint getAgentForTask_loop (agents : list (string * Agent)) (task : Task)
  : result Agent :=
  match agents with
  | [] => Err (Errorf ("no agent configured for state " ++ State_ task))
  | (_, agent) :: rest =>
      if existsb (fun allowedState => String.eqb allowedState (State_ task))
                 (AllowedStates agent)
      then Ok agent
      else getAgentForTask_loop rest task
  end.

Definition getAgentForTask (cfg : Config) (task : Task) : result Agent :=
  getAgentForTask_loop (Agents cfg) task.

Definition nl : string := String (ascii_of_nat 10) "".

Definition buildPrompt (task : Task) (agent : Agent) : result string :=
  Ok ("# " ++ Name agent ++ " Role" ++ nl ++ nl
      ++ "You are the " ++ Name agent ++ " for this project. " ++ Role agent
      ++ nl ++ nl
      ++ "## Current Context" ++ nl
      ++ "- **Task**: " ++ Title task ++ nl
      ++ "- **Description**: " ++ Description task ++ nl
      ++ "- **State**: " ++ State_ task ++ nl
      ++ "- **Priority**: " ++ itoa (Priority task) ++ nl ++ nl
      ++ "## Your Responsibilities" ++ nl
      ++ "Handle the current task state (" ++ State_ task
      ++ ") according to your role." ++ nl ++ nl
      ++ "## Important Rules" ++ nl
      ++ "- Use the MCP tools to update task state and artifacts" ++ nl
      ++ "- Follow the implementation plan exactly if one exists" ++ nl
      ++ "- Create required handover artifacts before state transitions" ++ nl
      ++ "- Update the task state when your work is complete" ++ nl ++ nl
      ++ "## Available MCP Methods" ++ nl
      ++ "- baton.tasks.get - Get task details" ++ nl
      ++ "- baton.tasks.update_state - Update task state" ++ nl
      ++ "- baton.tasks.append_note - Add notes to task" ++ nl
      ++ "- baton.artifacts.upsert - Create/update artifacts" ++ nl
      ++ "- baton.artifacts.get - Get existing artifacts" ++ nl
      ++ "- baton.plan.read - Read the project plan" ++ nl
      ++ "- baton.requirements.list - List requirements" ++ nl ++ nl
      ++ "Please proceed with handling this task.").

Definition buildInputsSummary (task : Task) : string :=
  "Task: " ++ Title task ++ " (State: " ++ State_ task ++ ", Priority: "
  ++ itoa (Priority task) ++ ")".

Definition buildOutputsSummary (artifactsCreated : list string) : string :=
  if Nat.eqb (List.length artifactsCreated) 0 then "No artifacts created"
  else "Artifacts created: [" ++ String.concat " " artifactsCreated ++ "]".

(** The instants at which one cycle reads the clock: at selection, at the
    handshake and when the audit row is written. *)
Record Times := mkTimes {
  tSelect : Time;
  tHandshake : Time;
  tAudit : Time
}.

(** [ExecuteCycle].  [mcpServer.Start] and the deferred [Stop] bracket the
    run of the agent: the requests that reach the method surface are served
    while the runner executes, between the selection and the handshake.
    [cycleID] is the fresh [uuid.New()]. *)
Definition ExecuteCycle (cfg : Config) (plan : option string)
           (llmClient : llm.Client) (ctx : Context) (cycleID : string)
           (at_ : Times) (dryRun : bool) : M CycleResult :=
  (selectionResult <- wrapf "task selection failed"
                        (query (fun s => SelectNext (Selection cfg) s (tSelect at_))) ;;
   let task := Task_ selectionResult in
   agent <- wrapf "failed to get agent for task"
              (query (fun _ => getAgentForTask cfg task)) ;;
   prompt <- wrapf "failed to build prompt" (query (fun _ => buildPrompt task agent)) ;;
   llmResponse <-
     (if negb dryRun then
        let run := llmClient prompt (Name agent) in
        (fun s => (Ok tt, snd (mcp.serve cfg plan (llm.calls run) s))) ;;;
        wrapf "LLM execution failed" (query (fun _ => llm.outcome run))
      else ret (llm.mkResponse true "[DRY RUN] Simulated agent response")) ;;
   next <-
     (if negb dryRun then
        handshakeResult <- wrapf "completion handshake failed"
                             (Enforce (Completion cfg) ctx (storage.ID task)
                                      llmResponse (tHandshake at_)) ;;
        ret (FinalState handshakeResult, hArtifactsCreated handshakeResult)
      else
        let allowedStates := match GetAllowedTransitions (State_ task) with
                             | Ok l => l
                             | Err _ => []
                             end in
        match allowedStates with
        | first :: _ => ret (first, [])
        | [] => ret (State_ task, [])
        end) ;;
   let (nextState, artifactsCreated) := next in
   let auditEntry :=
     mkAuditLog (storage.ID task) cycleID (State_ task) nextState (Name agent)
                (Reason selectionResult) (buildInputsSummary task)
                (buildOutputsSummary artifactsCreated) "success"
                ("LLM Response: " ++ substring 0 200 (llm.Content llmResponse))
                0 in
   (if negb dryRun
    then wrapf "failed to log audit entry" (audit.LogCycle auditEntry (tAudit at_))
    else ret tt) ;;;
   ret (mkCycleResult true (storage.ID task) (State_ task) nextState
                      artifactsCreated))%store.

End cycle.

(** * Specification-side definitions *)

Import storage config.

(** A legal transition of section 4.1: the Validator's transition check
    accepts it. *)
Definition legal (from to : State) : Prop :=
  statemachine.ValidateTransition from to = Ok tt.

(** Zero or more legal transitions. *)
Definition legal_path : State -> State -> Prop := clos_refl_trans State legal.

(** From store [s] to store [s'], every task is still there and its state is
    the same or a legal successor. *)
Definition moves_legally (s s' : Store) : Prop :=
  forall taskID task,
    GetTask s taskID = Ok task ->
    exists task', GetTask s' taskID = Ok task'
                  /\ (State_ task' = State_ task \/ legal (State_ task) (State_ task')).





(** The primary key of [tasks]. *)
Definition tasks_pk (s : Store) : Prop := NoDup (map ID (tasks s)).

(** Invariant 1 of the data model: every stored state is a member of the
    state enum (possibly under an alias). *)
Definition states_in_enum (s : Store) : Prop :=
  forall t, In t (tasks s) -> In (NormalizeState (State_ t)) statemachine.GetAllStates.



Definition with_tie_breaker (cfg : SelectionConfig) (tb : string) : SelectionConfig :=
  mkSelectionConfig (Algorithm cfg) (DependencyStrict cfg) (PreferLeafTasks cfg) tb.

(** Two candidates tie when the tie-breaker is what orders them. *)
Definition tied (cfg : SelectionConfig) (a b : selection.taskCandidate) : Prop :=
  selection.cPriority a = selection.cPriority b
  /\ (PreferLeafTasks cfg = true -> selection.IsLeaf a = selection.IsLeaf b).

(** [a] stands before [b] somewhere in [l]. *)
Definition before_in {A} (l : list A) (a b : A) : Prop :=
  exists l1 l2 l3, l = (l1 ++ a :: l2 ++ b :: l3)%list.


(** A request with an object of parameters. *)
Definition request (method : string) (params : list (string * JSONValue))
  : mcp.JSONRPCRequest :=
  mcp.mkRequest method (JObject params) (JNumber 1).

(** The error code of a response, when it is an error. *)
Definition error_code (r : mcp.JSONRPCResponse) : option int :=
  option_map mcp.Code (mcp.Error r).

(** The request asks the method surface for a resource that is not there: a
    task ([tasks.get], [tasks.append_note]), an artifact ([artifacts.get]) or
    the plan file ([plan.read]). *)
Definition asks_missing (plan : option string) (req : mcp.JSONRPCRequest)
           (s : Store) : Prop :=
  (mcp.Method req = "baton.tasks.get"
   /\ exists taskID, mcp.GetStringParam req "task_id" = Ok taskID
                     /\ GetTask s taskID = Err ErrNoRows)
  \/ (mcp.Method req = "baton.tasks.append_note"
      /\ exists taskID note, mcp.GetStringParam req "task_id" = Ok taskID
                             /\ mcp.GetStringParam req "note" = Ok note
                             /\ GetTask s taskID = Err ErrNoRows)
  \/ (mcp.Method req = "baton.artifacts.get"
      /\ exists taskID name,
           mcp.GetStringParam req "task_id" = Ok taskID
           /\ mcp.GetStringParam req "name" = Ok name
           /\ GetArtifact s taskID name
                (match mcp.GetIntParam req "version" with Ok v => v | Err _ => 0 end)
              = Err ErrNoRows)
  \/ (mcp.Method req = "baton.plan.read" /\ plan = None).

(** The [tasks.append_note] request for a task and a note. *)
Definition append_note_request (taskID note : string) : mcp.JSONRPCRequest :=
  request "baton.tasks.append_note"
          [("task_id", JString taskID); ("note", JString note)].

(** The dependency id does not resolve to a task, or resolves to a task that
    is not in state [DONE]. *)
Definition dependency_unmet (s : Store) (depID : string) : Prop :=
  match GetTask s depID with
  | Ok depTask => State_ depTask <> Done
  | Err _ => True
  end.

(** The candidate that the selector builds for a task carries the task and
    the verdict of [isBlockedByDependencies]. *)
Definition classified (cfg : SelectionConfig) (s : Store) (task : Task)
           (c : selection.taskCandidate) : Prop :=
  selection.cTask c = task
  /\ selection.Blocked c = fst (selection.isBlockedByDependencies cfg s task).

(** ** Sample data *)

Definition sample_task (id : string) (st : State) (deps : RawMessage) : Task :=
  mkTask id "Auth" "Authentication" st 7 "" RawEmpty deps RawEmpty 100 100.

Definition sample_store : Store :=
  mkStore [sample_task "T1" ReadyForPlan RawEmpty] [] [] [].

Definition sample_config : Config :=
  mkConfig "./plan.md"
    [ ("architect",
       mkAgent "System Architect" "Plans and designs system architecture"
               ["ready_for_plan"; "planning"]) ]
    (mkSelectionConfig "priority_dependency" true true "oldest_updated")
    (mkCompletionConfig 2 5 true "Are you finished? The state is not updated.")
    3600.

Definition lenient_selection : SelectionConfig :=
  mkSelectionConfig "priority_dependency" false true "oldest_updated".

(** A task whose only dependency names no task, and a store that holds it. *)
Definition orphan_task : Task := sample_task "T9" ReadyForPlan (RawStrings ["ghost"]).

Definition orphan_store : Store := mkStore [orphan_task] [] [] [].

(** A selection policy whose tie-breaker is none of the three names. *)
Definition whimsical_selection : SelectionConfig :=
  mkSelectionConfig "priority_dependency" true true "round_robin".

Definition candidate_of (id : string) (updated : Time) : selection.taskCandidate :=
  selection.mkTaskCandidate
    (mkTask id id "" ReadyForPlan 5 "" RawEmpty RawEmpty RawEmpty 0 updated)
    false "" true 5.

(** Scenario 2: the task is in [planning] and has no artifact. *)
Definition planning_store : Store :=
  mkStore [sample_task "T1" Planning RawEmpty] [] [] [].

(** The sample configuration with [require_explicit_state_update] off. *)
Definition patient_config : Config :=
  mkConfig "./plan.md" (Agents sample_config) (Selection sample_config)
           (mkCompletionConfig 2 5 false "Are you finished? The state is not updated.")
           3600.

Definition never_cancelled : cycle.Context := fun _ => false.

Definition sample_times : cycle.Times := cycle.mkTimes 150 300 400.

(** An agent that declares [ready_for_plan -> planning] and ends. *)
Definition diligent_agent : llm.Client := fun _ _ =>
  llm.mkRun
    [ (200, request "baton.tasks.update_state"
              [("task_id", JString "T1"); ("state", JString "planning")]) ]
    (Ok (llm.mkResponse true "done")).

(** An agent that ends without a word to the method surface. *)
Definition silent_agent : llm.Client := fun _ _ =>
  llm.mkRun [] (Ok (llm.mkResponse true "done")).

Definition sample_log (taskID : string) (created : Time) : AuditLog :=
  mkAuditLog taskID "c" "ready_for_plan" "planning" "System Architect" "" "" ""
             "success" "" created.

Definition audited_store : Store :=
  mkStore [sample_task "T1" Planning RawEmpty] [] []
          [sample_log "T1" 1; sample_log "T1" 2].

(** * More of the code *)

(** ** Package storage: the other statements of sqlite.go and web_methods.go *)
Module sqlite.
Import storage.

(** The WHERE clause that [ListTasks] and [GetTaskCount] build from the
    filters. *)
Definition matches (filters : TaskFilters) (t : Task) : bool :=
  opt_match String.eqb (fState filters) (State_ t)
  && opt_match Z.eqb (fPriority filters) (Priority t)
  && opt_match String.eqb (fOwner filters) (Owner t).


(** [SELECT COUNT( * ) FROM tasks WHERE ...] *)
Definition GetTaskCount (s : Store) (filters : TaskFilters) : result int :=
  Ok (Z.of_nat (List.length (filter (matches filters) (tasks s)))).



(** [LIMIT ?]: a negative limit is no limit. *)
Definition limit_rows {A} (limit : int) (rows : list A) : list A :=
  if limit <? 0 then rows else firstn (Z.to_nat limit) rows.

(** The columns that [GetRecentAuditEntries] scans into an [AuditEntry]: the
    other fields of the struct keep their zero value, and [SelectionReason]
    receives the title of the joined task. *)
Definition recent_entry (s : Store) (l : AuditLog) : AuditLog :=
  mkAuditLog (lTaskID l) "" (lPrevState l) (lNextState l) (lActor l)
             (match GetTask s (lTaskID l) with
              | Ok t => Title t
              | Err _ => ""
              end)
             "" "" "" "" (lCreatedAt l).

(** [... FROM audit_logs a LEFT JOIN tasks t ... ORDER BY a.created_at DESC
    LIMIT ?] *)
Definition GetRecentAuditEntries (s : Store) (limit : int) : result (list AuditLog) :=
  Ok (map (recent_entry s)
          (limit_rows limit
             (sort_by (fun a b => lCreatedAt b <? lCreatedAt a) (audit_logs s)))).

End sqlite.

(** ** Package statemachine: the read-only sibling of the validator *)
Module inspect.
Import storage statemachine.





End inspect.

(** ** Package statemachine: the status report of the selector *)
Module status.
Import storage config statemachine selection.







End status.

(** ** Package mcp: the wire *)
Module jsonrpc.







End jsonrpc.

(** ** Package audit: the other entries of the logger *)
Module logger.
Import storage.



End logger.

(** ** Package web: the counts of the status page *)
Module web.
Import storage.

(** The states that [handleStatus] asks a count for, in its order. *)
Definition status_states : list State :=
  [ReadyForPlan; Planning; ReadyForImplementation; Implementing;
   ReadyForCodeReview; Reviewing; ReadyForCommit; Committing;
   NeedsFixes; Fixing; Done].

(** [m[k] = v] on a Go map, kept as the list of its entries. *)
Fixpoint put (k : string) (v : int) (m : list (string * int)) : list (string * int) :=
  match m with
  | [] => [(k, v)]
  | (k', v') :: rest =>
      if String.eqb k' k then (k', v) :: rest else (k', v') :: put k v rest
  end.

(** One iteration of the loop of [handleStatus] over the states: a count
    that fails is logged and skipped. *)
Definition count_step (s : Store) (acc : list (string * int) * int) (state : State)
  : list (string * int) * int :=
  match sqlite.GetTaskCount s (mkTaskFilters (Some state) None None) with
  | Err _ => acc
  | Ok count => (put state count (fst acc), int_wrap (snd acc + count))
  end.

(** [tasksByState] and [totalTasks] of [handleStatus]. *)
Definition tasks_by_state (s : Store) : list (string * int) * int :=
  fold_left (count_step s) status_states ([], 0).

End web.

(** ** Specification-side definitions for the rest of the code *)




(** [stateCount[state]] read back from the Go map: the zero value when the
    key is absent. *)
Definition count_of (state : string) (counts : list (string * int)) : int :=
  match assoc state counts with
  | Some n => n
  | None => 0
  end.

(** What the method surface may change from store [s] to store [s']: no
    requirement and no audit row, no task is created or deleted, and
    artifacts are only added. *)
Definition surface_frame (s s' : Store) : Prop :=
  requirements s' = requirements s
  /\ audit_logs s' = audit_logs s
  /\ map ID (tasks s') = map ID (tasks s)
  /\ exists added, artifacts s' = (artifacts s ++ added)%list.

(** The methods of the surface that write to the store. *)
Definition writing_methods : list string :=
  ["baton.tasks.update_state"; "baton.tasks.append_note"; "baton.artifacts.upsert"].

(** A response carries a result and no error, or an error and no result. *)
Definition well_formed (r : mcp.JSONRPCResponse) : Prop :=
  (exists p, mcp.Result r = Some p /\ mcp.Error r = None)
  \/ (exists e, mcp.Result r = None /\ mcp.Error r = Some e).

(** ** Tactics *)

(** Destructs the scrutinee of the first [match] of the goal. *)
Ltac case_match :=
  match goal with
  | |- context [match ?x with _ => _ end] => destruct x eqn:?
  end.

(** Case analysis on the integer comparisons of the goal, closed by [lia]. *)
Ltac order_cases :=
  repeat match goal with
         | |- context [?x =? ?y] => destruct (Z.eqb_spec x y)
         | |- context [?x <? ?y] => destruct (Z.ltb_spec x y)
         | H : context [?x =? ?y] |- _ => destruct (Z.eqb_spec x y)
         | H : context [?x <? ?y] |- _ => destruct (Z.ltb_spec x y)
         end;
  simpl in *; try congruence; try lia.

(** A handler that answers with an error and leaves the store [s]. *)
Ltac surface_leaf s :=
  cbn [fst snd mcp.ID mcp.Result mcp.Error mcp.Code
       mcp.NewJSONRPCError mcp.NewJSONRPCResponse];
  split; [reflexivity|];
  split; [first [ left; eexists; split; reflexivity
                | right; eexists; split; [reflexivity|]; split; [reflexivity|];
                  split; [cbv; discriminate | reflexivity] ]|];
  split; [repeat (split; [reflexivity|]); exists []; symmetry; apply app_nil_r|];
  split; [lia|]; intros _; reflexivity.

(** * Facts about the embedding *)

(** ** Sorting *)
Section Sorting.
Context {A : Type} (less : A -> A -> bool).

Lemma insert_by_perm (x : A) (l : list A) :
  Permutation (insert_by less x l) (x :: l).
Proof.
  induction l as [|y l IH]; simpl; [reflexivity|].
  destruct (less y x); [|reflexivity].
  rewrite IH. apply perm_swap.
Qed.

Lemma sort_by_perm (l : list A) : Permutation (sort_by less l) l.
Proof.
  induction l as [|x l IH]; simpl; [constructor|].
  rewrite insert_by_perm. now constructor.
Qed.

Lemma sort_by_In (l : list A) (x : A) : In x (sort_by less l) <-> In x l.
Proof.
  split; apply Permutation_in; [|symmetry]; apply sort_by_perm.
Qed.

Hypothesis less_asym : forall a b, less a b = true -> less b a = false.
Hypothesis less_negtrans :
  forall a b c, less b a = false -> less c b = false -> less c a = false.

Let ordered (a b : A) : Prop := less b a = false.

Lemma insert_by_sorted (x : A) (l : list A) :
  StronglySorted ordered l -> StronglySorted ordered (insert_by less x l).
Proof.
  induction 1 as [|y l Hs IH Hall]; simpl.
  - repeat constructor.
  - destruct (less y x) eqn:Hyx.
    + constructor; [exact IH|].
      rewrite Forall_forall in *. intros z Hz.
      apply (Permutation_in _ (insert_by_perm x l)) in Hz.
      destruct Hz as [<-|Hz]; [now apply less_asym | now apply Hall].
    + constructor; [now constructor|].
      constructor; [exact Hyx|].
      rewrite Forall_forall in *. intros z Hz.
      unfold ordered. apply less_negtrans with (b := y); [exact Hyx|].
      now apply Hall.
Qed.

Lemma sort_by_sorted (l : list A) : StronglySorted ordered (sort_by less l).
Proof.
  induction l as [|x l IH]; simpl; [constructor|].
  now apply insert_by_sorted.
Qed.

End Sorting.

Lemma StronglySorted_weaken {A} (R R' : A -> A -> Prop) (l : list A) :
  (forall a b, R a b -> R' a b) -> StronglySorted R l -> StronglySorted R' l.
Proof.
  intros HR. induction 1 as [|x l Hs IH Hall]; constructor; [exact IH|].
  eapply Forall_impl; [|exact Hall]. intros b. apply HR.
Qed.

Lemma sorted_before_in {A} (R : A -> A -> Prop) (l : list A) (a b : A) :
  StronglySorted R l -> before_in l a b -> R a b.
Proof.
  intros Hs (l1 & l2 & l3 & ->).
  induction l1 as [|x l1 IH]; simpl in Hs.
  - apply StronglySorted_inv in Hs. destruct Hs as [_ Hall].
    rewrite Forall_forall in Hall. apply Hall.
    apply in_or_app. right. now left.
  - apply StronglySorted_inv in Hs. now apply IH.
Qed.

(** * The audit log *)



(** * The method surface *)

Lemma assoc_In {V} (k : string) (m : list (string * V)) (v : V) :
  assoc k m = Some v -> In (k, v) m.
Proof.
  induction m as [|[k' v'] m IH]; simpl; [discriminate|].
  destruct (String.eqb_spec k' k) as [->|_].
  - intros [= ->]. now left.
  - intros H. right. now apply IH.
Qed.




(** Every error that a handler builds carries one of four codes. *)
Lemma handler_codes (cfg : Config) (plan : option string) (now : Time)
      (req : mcp.JSONRPCRequest) (s : Store) (e : mcp.JSONRPCError) :
  mcp.Error (fst (mcp.handleRequest cfg plan now req s)) = Some e ->
  In (mcp.Code e, mcp.Message e)
     [ (mcp.MethodNotFound, "Method not found: " ++ mcp.Method req);
       (mcp.InvalidParams, "Missing task_id parameter");
       (mcp.InvalidParams, "Missing state parameter");
       (mcp.InvalidParams, "Missing note parameter");
       (mcp.InvalidParams, "Missing name parameter");
       (mcp.InvalidParams, "Missing content parameter");
       (mcp.InvalidParams, "Invalid parameters");
       (mcp.InvalidParams, "Invalid initialize parameters");
       (mcp.InvalidParams, "State transition failed");
       (mcp.InternalError, "Failed to select next task");
       (mcp.InternalError, "Failed to get task artifacts");
       (mcp.InternalError, "Failed to append note");
       (mcp.InternalError, "Failed to list tasks");
       (mcp.InternalError, "Failed to upsert artifact");
       (mcp.InternalError, "Failed to list artifacts");
       (mcp.InternalError, "Failed to list requirements");
       (mcp.ResourceNotFound, "Task not found");
       (mcp.ResourceNotFound, "Artifact not found");
       (mcp.ResourceNotFound, "Plan file not found") ].
Proof.
  unfold mcp.handleRequest.
  destruct (assoc _ _) as [h|] eqn:Hh.
  2:{ simpl. intros [= <-]. simpl. now left. }
  apply assoc_In in Hh. simpl in Hh.
  repeat (destruct Hh as [Hh|Hh]; [injection Hh as _ <-|]); [..|contradiction];
    cbv [mcp.TaskHandler.GetNext mcp.TaskHandler.Get mcp.TaskHandler.UpdateState
         mcp.TaskHandler.AppendNote mcp.TaskHandler.List
         mcp.ArtifactHandler.Upsert mcp.ArtifactHandler.Get mcp.ArtifactHandler.List
         mcp.RequirementHandler.List mcp.PlanHandler.Read
         mcp.handleInitialize mcp.handlePing];
    repeat case_match; simpl; intros [= <-]; simpl; tauto.
Qed.

(** C9, counterexample: [tasks.get] on an id that names no task answers with
    error code -32002, not -32001. *)
Lemma tasks_get_missing_code :
  error_code (fst (mcp.handleRequest sample_config None 0
                     (request "baton.tasks.get" [("task_id", JString "ghost")])
                     sample_store))
  = Some (-32002)
  /\ (-32002 <> -32001).
Proof. split; [reflexivity | discriminate]. Qed.

(** C9, amended: every response of the method surface that reports a
    requested resource as not found carries error code -32002
    ([ResourceNotFound]) and leaves the store as it was; no response carries
    -32001, which is [ToolNotFound]; no code stands for forbidden. *)
Theorem not_found_code (cfg : Config) (plan : option string) (now : Time)
        (req : mcp.JSONRPCRequest) (s : Store) :
  (asks_missing plan req s ->
   error_code (fst (mcp.handleRequest cfg plan now req s)) = Some (-32002)
   /\ snd (mcp.handleRequest cfg plan now req s) = s)
  /\ (forall e, mcp.Error (fst (mcp.handleRequest cfg plan now req s)) = Some e ->
                In (mcp.Code e) [-32601; -32602; -32603; -32002])
  /\ mcp.ResourceNotFound = -32002
  /\ mcp.ToolNotFound = -32001.
Proof.
  split; [|split; [|split; reflexivity]].
  - unfold mcp.handleRequest, error_code.
    intros [(Hm & taskID & Hid & Hget)
           |[(Hm & taskID & note & Hid & Hnote & Hget)
            |[(Hm & taskID & name & Hid & Hname & Hget)
             |(Hm & ->)]]]; rewrite Hm; simpl.
    + unfold mcp.TaskHandler.Get. rewrite Hid, Hget. now split.
    + unfold mcp.TaskHandler.AppendNote. rewrite Hid, Hnote, Hget. now split.
    + unfold mcp.ArtifactHandler.Get. rewrite Hid, Hname, Hget. now split.
    + now split.
  - intros e He. apply handler_codes in He.
    simpl in He.
    repeat (destruct He as [He|He]; [injection He as <- _; simpl; tauto|]).
    contradiction.
Qed.

(** The witness of [not_found_code]: [artifacts.get] on an artifact that was
    never stored. *)
Lemma not_found_code_witness :
  let req := request "baton.artifacts.get"
                     [("task_id", JString "T1"); ("name", JString "fix_plan")] in
  asks_missing None req sample_store
  /\ error_code (fst (mcp.handleRequest sample_config None 0 req sample_store))
     = Some (-32002)
  /\ snd (mcp.handleRequest sample_config None 0 req sample_store) = sample_store.
Proof.
  intros req.
  assert (H : asks_missing None req sample_store).
  { right. right. left. split; [reflexivity|].
    exists "T1", "fix_plan". repeat split; reflexivity. }
  split; [exact H|].
  exact (proj1 (not_found_code sample_config None 0 req sample_store) H).
Defined.

(** ** [tasks.append_note] *)

Lemma GetStringParam_request (method : string) (params : list (string * JSONValue))
      (name : string) :
  mcp.GetStringParam (request method params) name
  = match assoc name params with
    | None => Err (Errorf ("parameter '" ++ name ++ "' not found"))
    | Some (JString str) => Ok str
    | Some _ => Err (Errorf ("parameter '" ++ name ++ "' is not a string"))
    end.
Proof. reflexivity. Qed.

(** What the handler does get right: on a task that exists it answers
    success and the task keeps its state; on a missing task it answers
    resource-not-found and writes nothing. *)
Lemma append_note_keeps_state (now : Time) (s : Store) (taskID note : string) :
  let out := mcp.TaskHandler.AppendNote now (append_note_request taskID note) s in
  match GetTask s taskID with
  | Ok task =>
      mcp.Result (fst out) = Some (mcp.PNoteAppended taskID)
      /\ exists task', GetTask (snd out) taskID = Ok task'
                       /\ State_ task' = State_ task
  | Err _ => error_code (fst out) = Some mcp.ResourceNotFound /\ snd out = s
  end.
Proof.
  unfold mcp.TaskHandler.AppendNote, append_note_request.
  rewrite !GetStringParam_request. simpl assoc. cbv iota.
  destruct (GetTask s taskID) as [task|e] eqn:Hget; simpl; [|now split].
  split; [reflexivity|].
  unfold GetTask in *. simpl.
  induction (tasks s) as [|t ts IH]; simpl in *; [discriminate|].
  destruct (String.eqb (ID t) taskID) eqn:Ht; simpl.
  - rewrite Ht. injection Hget as ->. eexists. split; reflexivity.
  - rewrite Ht. now apply IH.
Qed.

(** C8: [tasks.append_note] answers success and stores nothing of the note.
    On the sample store the call with the note "remember the login flow"
    leaves exactly the store that the call with the empty note leaves: the
    task with a new [updated_at] and no other change; and in general the
    store after the call does not depend on the note. *)
Theorem append_note_discards_note :
  (let out := mcp.handleRequest sample_config None 200
                (append_note_request "T1" "remember the login flow") sample_store in
   mcp.Result (fst out) = Some (mcp.PNoteAppended "T1")
   /\ snd out = mkStore [set_state (sample_task "T1" ReadyForPlan RawEmpty)
                                   ReadyForPlan 200] [] [] [])
  /\ forall now s taskID note1 note2,
       snd (mcp.TaskHandler.AppendNote now (append_note_request taskID note1) s)
       = snd (mcp.TaskHandler.AppendNote now (append_note_request taskID note2) s).
Proof.
  split; [split; reflexivity|].
  intros now s taskID note1 note2.
  unfold mcp.TaskHandler.AppendNote, append_note_request.
  rewrite !GetStringParam_request. simpl assoc. cbv iota.
  destruct (GetTask s taskID); reflexivity.
Qed.

(** * The selector *)

Lemma blocked_by_spec (s : Store) (deps : list string) :
  fst (selection.blocked_by s deps) = true <-> Exists (dependency_unmet s) deps.
Proof.
  induction deps as [|depID deps IH]; simpl.
  - split; [discriminate | intros H; inversion H].
  - unfold dependency_unmet at 1.
    destruct (GetTask s depID) as [depTask|e] eqn:Hget.
    + destruct (String.eqb_spec (State_ depTask) Done) as [Heq|Hne]; simpl.
      * rewrite IH. split; [now right|].
        intros H. inversion H as [? ? Hu|]; subst; [|assumption].
        unfold dependency_unmet in Hu. rewrite Hget in Hu. contradiction.
      * split; [|reflexivity]. intros _. left.
        unfold dependency_unmet. now rewrite Hget.
    + simpl. split; [|reflexivity]. intros _. left.
      unfold dependency_unmet. now rewrite Hget.
Qed.

Lemma classify_classified (cfg : SelectionConfig) (s : Store) (tasks : list Task) :
  forall cands, selection.classify cfg s tasks = Ok cands ->
                Forall2 (classified cfg s) tasks cands.
Proof.
  induction tasks as [|task tasks IH]; cbn [selection.classify]; intros cands.
  - intros [= <-]. constructor.
  - destruct (selection.isBlockedByDependencies cfg s task) as [blocked reason] eqn:Hb.
    destruct (selection.hasUnfinishedDependents s task); [|discriminate].
    destruct (selection.classify cfg s tasks); [|discriminate].
    intros [= <-]. constructor; [|now apply IH].
    split; simpl; [reflexivity | now rewrite Hb].
Qed.

(** C6, counterexample: with [dependency_strict] off, a candidate whose only
    dependency id names no task is classified as not blocked, and the
    selector selects it. *)
Lemma unresolved_dependency_not_blocked :
  GetTask orphan_store "ghost" = Err ErrNoRows
  /\ Dependencies orphan_task = RawStrings ["ghost"]
  /\ DependencyStrict lenient_selection = false
  /\ fst (selection.isBlockedByDependencies lenient_selection orphan_store orphan_task)
     = false
  /\ (exists c, selection.classify lenient_selection orphan_store [orphan_task] = Ok [c]
                /\ selection.Blocked c = false)
  /\ result_map selection.Task_ (selection.SelectNext lenient_selection orphan_store 200)
     = Ok orphan_task.
Proof.
  repeat split. eexists. split; reflexivity.
Qed.

(** C6, amended: a candidate is classified as blocked exactly when
    [dependency_strict] is set and its dependency list does not decode, or
    names an id that resolves to no task, or names a task that is not in
    state DONE; with [dependency_strict] off no candidate is blocked; a
    candidate with an empty dependency set is never blocked; and the
    priority_dependency algorithm gives each candidate this verdict. *)
Theorem blocked_classification (cfg : SelectionConfig) (s : Store) (task : Task) :
  (fst (selection.isBlockedByDependencies cfg s task) = true
   <-> DependencyStrict cfg = true
       /\ (Dependencies task = RawMalformed
           \/ exists deps, Dependencies task = RawStrings deps
                           /\ Exists (dependency_unmet s) deps))
  /\ (DependencyStrict cfg = false ->
      fst (selection.isBlockedByDependencies cfg s task) = false)
  /\ (Dependencies task = RawEmpty \/ Dependencies task = RawStrings [] ->
      fst (selection.isBlockedByDependencies cfg s task) = false)
  /\ (forall tasks cands, selection.classify cfg s tasks = Ok cands ->
                          Forall2 (classified cfg s) tasks cands).
Proof.
  unfold selection.isBlockedByDependencies.
  split; [|split; [|split]].
  - destruct (DependencyStrict cfg); simpl.
    + destruct (Dependencies task) as [| |deps]; simpl.
      * split; [discriminate|]. intros [_ [H|(deps & H & _)]]; discriminate.
      * split; [|reflexivity]. intros _. split; [reflexivity | now left].
      * rewrite blocked_by_spec. split.
        -- intros H. split; [reflexivity|]. right. now exists deps.
        -- intros [_ [H|(deps' & [= <-] & H)]]; [discriminate | exact H].
    + split; [discriminate | intros [H _]; discriminate].
  - intros ->. reflexivity.
  - destruct (DependencyStrict cfg); simpl; [|reflexivity].
    intros [->| ->]; reflexivity.
  - apply classify_classified.
Qed.

(** The witness of [blocked_classification]: under strict dependencies the
    task whose dependency names no task is blocked. *)
Lemma blocked_classification_witness :
  DependencyStrict (Selection sample_config) = true
  /\ Exists (dependency_unmet orphan_store) ["ghost"]
  /\ fst (selection.isBlockedByDependencies (Selection sample_config)
            orphan_store orphan_task) = true.
Proof.
  assert (H : Exists (dependency_unmet orphan_store) ["ghost"]).
  { left. exact I. }
  split; [reflexivity|]. split; [exact H|].
  apply (proj2 (proj1 (blocked_classification (Selection sample_config)
                         orphan_store orphan_task))).
  split; [reflexivity|]. right. exists ["ghost"]. split; [reflexivity | exact H].
Defined.

(** ** The tie-breaker *)

Lemma sort_by_ext {A} (f g : A -> A -> bool) (l : list A) :
  (forall a b, f a b = g a b) -> sort_by f l = sort_by g l.
Proof.
  intros Hfg. induction l as [|x l IH]; simpl; [reflexivity|].
  rewrite IH. generalize (sort_by g l) as l'.
  induction l' as [|y l' IH']; simpl; [reflexivity|].
  now rewrite Hfg, IH'.
Qed.

(** The comparison that the [default] branch of the tie-breaker computes:
    priority descending, then leaf first when leaves are preferred, then
    earliest [updated_at]. *)
Lemma less_default (cfg : SelectionConfig) (a b : selection.taskCandidate) :
  TieBreaker cfg <> "newest_created" ->
  TieBreaker cfg <> "alphabetical" ->
  selection.less cfg a b
  = if negb (selection.cPriority a =? selection.cPriority b)
    then selection.cPriority b <? selection.cPriority a
    else if PreferLeafTasks cfg
            && negb (Bool.eqb (selection.IsLeaf a) (selection.IsLeaf b))
         then selection.IsLeaf a
         else UpdatedAt (selection.cTask a) <? UpdatedAt (selection.cTask b).
Proof.
  intros Hn Ha. unfold selection.less.
  apply String.eqb_neq in Hn, Ha. rewrite Hn, Ha.
  now destruct (String.eqb (TieBreaker cfg) "oldest_updated").
Qed.

Lemma less_default_asym (cfg : SelectionConfig) (a b : selection.taskCandidate) :
  TieBreaker cfg <> "newest_created" ->
  TieBreaker cfg <> "alphabetical" ->
  selection.less cfg a b = true -> selection.less cfg b a = false.
Proof.
  intros Hn Ha. rewrite !less_default by assumption.
  destruct (PreferLeafTasks cfg), (selection.IsLeaf a), (selection.IsLeaf b);
    simpl; order_cases.
Qed.

Lemma less_default_negtrans (cfg : SelectionConfig) (a b c : selection.taskCandidate) :
  TieBreaker cfg <> "newest_created" ->
  TieBreaker cfg <> "alphabetical" ->
  selection.less cfg b a = false -> selection.less cfg c b = false ->
  selection.less cfg c a = false.
Proof.
  intros Hn Ha. rewrite !less_default by assumption.
  destruct (PreferLeafTasks cfg), (selection.IsLeaf a), (selection.IsLeaf b),
    (selection.IsLeaf c); simpl; order_cases.
Qed.

Lemma classify_tie_breaker (cfg : SelectionConfig) (tb : string) (s : Store)
      (tasks : list Task) :
  selection.classify (with_tie_breaker cfg tb) s tasks = selection.classify cfg s tasks.
Proof.
  induction tasks as [|task tasks IH]; cbn [selection.classify]; [reflexivity|].
  now rewrite IH.
Qed.

(** C10: with a tie-breaker that is none of "oldest_updated",
    "newest_created", "alphabetical", the comparison of the selector is the
    comparison of "oldest_updated"; so sorting loses no candidate and puts
    the candidates into the same order, the selector selects the same task
    as under "oldest_updated" and fails only where "oldest_updated" fails,
    with the same error; and of two tied candidates the one that stands
    first in the sorted slice has the earlier (or the same) [updated_at]. *)
Theorem unknown_tie_breaker_is_oldest_updated (cfg : SelectionConfig) :
  TieBreaker cfg <> "oldest_updated" ->
  TieBreaker cfg <> "newest_created" ->
  TieBreaker cfg <> "alphabetical" ->
  (forall a b, selection.less cfg a b
               = selection.less (with_tie_breaker cfg "oldest_updated") a b)
  /\ (forall candidates,
         Permutation (selection.sortCandidates cfg candidates) candidates
         /\ selection.sortCandidates cfg candidates
            = selection.sortCandidates (with_tie_breaker cfg "oldest_updated")
                candidates)
  /\ (forall s now,
         result_map selection.Task_ (selection.SelectNext cfg s now)
         = result_map selection.Task_
             (selection.SelectNext (with_tie_breaker cfg "oldest_updated") s now))
  /\ (forall candidates a b,
         tied cfg a b ->
         before_in (selection.sortCandidates cfg candidates) a b ->
         UpdatedAt (selection.cTask a) <= UpdatedAt (selection.cTask b)).
Proof.
  intros Ho Hn Ha.
  assert (Hless : forall a b, selection.less cfg a b
                              = selection.less (with_tie_breaker cfg "oldest_updated") a b).
  { intros a b. rewrite less_default by assumption.
    rewrite less_default by (simpl; discriminate). reflexivity. }
  assert (Hsort : forall candidates,
             selection.sortCandidates cfg candidates
             = selection.sortCandidates (with_tie_breaker cfg "oldest_updated") candidates).
  { intros candidates. apply sort_by_ext, Hless. }
  split; [exact Hless|].
  split; [intros candidates; split; [apply sort_by_perm | apply Hsort]|]. split.
  - intros s now. unfold selection.SelectNext.
    destruct (selection.getSelectableTasks s) as [tasks|e]; [|reflexivity].
    destruct (Nat.eqb (length tasks) 0); [reflexivity|].
    simpl Algorithm.
    destruct (String.eqb (Algorithm cfg) "priority_dependency"); [|reflexivity].
    unfold selection.selectByPriorityAndDependency.
    rewrite classify_tie_breaker.
    destruct (selection.classify cfg s tasks) as [cands|e]; [|reflexivity].
    rewrite <- Hsort.
    destruct (selection.sortCandidates cfg _); reflexivity.
  - intros candidates a b [Hp Hl] Hbefore.
    assert (Hs := sort_by_sorted (selection.less cfg)
                    (fun x y => less_default_asym cfg x y Hn Ha)
                    (fun x y z => less_default_negtrans cfg x y z Hn Ha)
                    candidates).
    apply (sorted_before_in _ _ a b Hs) in Hbefore.
    rewrite less_default in Hbefore by assumption.
    rewrite Hp, Z.eqb_refl in Hbefore. simpl in Hbefore.
    destruct (PreferLeafTasks cfg); simpl in Hbefore.
    + rewrite Hl, Bool.eqb_reflx in Hbefore by reflexivity. simpl in Hbefore.
      now apply Z.ltb_ge in Hbefore.
    + now apply Z.ltb_ge in Hbefore.
Qed.

(** The witness of [unknown_tie_breaker_is_oldest_updated]: under the
    tie-breaker "round_robin" the candidate updated at instant 10 is sorted
    before the tied candidate updated at instant 20. *)
Lemma unknown_tie_breaker_witness :
  let a := candidate_of "A" 10 in
  let b := candidate_of "B" 20 in
  (TieBreaker whimsical_selection <> "oldest_updated"
   /\ TieBreaker whimsical_selection <> "newest_created"
   /\ TieBreaker whimsical_selection <> "alphabetical")
  /\ tied whimsical_selection a b
  /\ before_in (selection.sortCandidates whimsical_selection [b; a]) a b
  /\ UpdatedAt (selection.cTask a) <= UpdatedAt (selection.cTask b).
Proof.
  intros a b.
  assert (Ho : TieBreaker whimsical_selection <> "oldest_updated") by discriminate.
  assert (Hn : TieBreaker whimsical_selection <> "newest_created") by discriminate.
  assert (Ha : TieBreaker whimsical_selection <> "alphabetical") by discriminate.
  assert (Ht : tied whimsical_selection a b) by (split; reflexivity).
  assert (Hb : before_in (selection.sortCandidates whimsical_selection [b; a]) a b).
  { exists [], [], []. reflexivity. }
  split; [now repeat split|]. split; [exact Ht|]. split; [exact Hb|].
  exact (proj2 (proj2 (proj2 (unknown_tie_breaker_is_oldest_updated
                                whimsical_selection Ho Hn Ha)))
           [b; a] a b Ht Hb).
Defined.

(** * Artifact versions *)







Lemma int_wrap_small (z : Z) : - 2 ^ 63 <= z <= max_int -> int_wrap z = z.
Proof.
  unfold int_wrap, max_int. intros H.
  rewrite Z.mod_small by lia. lia.
Qed.









(** Scenario 5: two upserts of [(T1, change_summary)]; the latest is version
    2 with content "v2", version 1 still holds "v1", and the list shows
    both. *)
Example artifact_versioning :
  let upsert content now s :=
    snd (mcp.ArtifactHandler.Upsert now
           (request "baton.artifacts.upsert"
              [("task_id", JString "T1"); ("name", JString "change_summary");
               ("content", JString content)]) s) in
  let s2 := upsert "v2" 600 (upsert "v1" 500 sample_store) in
  result_map (fun a => (aVersion a, aContent a)) (GetArtifact s2 "T1" "change_summary" 0)
  = Ok (2, "v2")
  /\ result_map (fun a => (aVersion a, aContent a))
       (GetArtifact s2 "T1" "change_summary" 1)
     = Ok (1, "v1")
  /\ result_map (map aVersion) (ListArtifacts s2 "T1") = Ok [2; 1].
Proof. repeat split. Qed.

(** * The selector picks a stored, non-terminal task *)

Lemma classify_In (cfg : SelectionConfig) (s : Store) (tasks : list Task) :
  forall cands c, selection.classify cfg s tasks = Ok cands -> In c cands ->
                  In (selection.cTask c) tasks.
Proof.
  induction tasks as [|task tasks IH]; cbn [selection.classify]; intros cands c.
  - intros [= <-] [].
  - destruct (selection.isBlockedByDependencies cfg s task) as [blocked reason].
    destruct (selection.hasUnfinishedDependents s task); [|discriminate].
    destruct (selection.classify cfg s tasks) as [cands'|]; [|discriminate].
    intros [= <-] [<-|Hc]; [now left|]. right. now apply (IH cands').
Qed.

Lemma SelectNext_selected (cfg : SelectionConfig) (s : Store) (now : Time)
      (sel : selection.SelectionResult) :
  selection.SelectNext cfg s now = Ok sel ->
  In (selection.Task_ sel) (tasks s)
  /\ statemachine.IsTerminalState (State_ (selection.Task_ sel)) = false.
Proof.
  unfold selection.SelectNext, selection.getSelectableTasks, ListTasks.
  destruct (Nat.eqb _ 0); [discriminate|].
  destruct (String.eqb (Algorithm cfg) "priority_dependency"); [|discriminate].
  unfold selection.selectByPriorityAndDependency.
  destruct (selection.classify _ _ _) as [cands|] eqn:Hcl; [|discriminate].
  destruct (selection.sortCandidates _ _) as [|selected rest] eqn:Hsort; [discriminate|].
  intros [= <-]. cbn [selection.Task_].
  assert (Hin : In selected (filter (fun c => negb (selection.Blocked c)) cands)).
  { apply (sort_by_In (selection.less cfg)). unfold selection.sortCandidates in Hsort.
    rewrite Hsort. now left. }
  apply filter_In in Hin. destruct Hin as [Hin _].
  apply (classify_In _ _ _ _ _ Hcl) in Hin.
  apply filter_In in Hin. destruct Hin as [Hin Hterm].
  apply sort_by_In, filter_In in Hin. destruct Hin as [Hin _].
  split; [exact Hin|]. now apply negb_true_iff in Hterm.
Qed.

(** A state of the enum that is not terminal has a first successor, and the
    step to it is legal. *)
Lemma first_successor (st : State) :
  In (NormalizeState st) statemachine.GetAllStates ->
  statemachine.IsTerminalState st = false ->
  exists first rest,
    statemachine.GetAllowedTransitions st = Ok (first :: rest)
    /\ legal st first.
Proof.
  unfold statemachine.IsTerminalState, statemachine.GetAllowedTransitions, legal,
    statemachine.ValidateTransition.
  intros Hin. cbn in Hin.
  repeat (destruct Hin as [Hin|Hin];
          [rewrite <- Hin; cbn; intros Hterm;
           first [discriminate Hterm | do 2 eexists; split; reflexivity]|]).
  contradiction.
Qed.

(** * The cycle engine *)

(** C5: a dry run writes nothing to the store: tasks, requirements,
    artifacts and audit rows are those of before; and when every stored state
    is a state of the enum, the CycleResult it returns names the selected
    task, with its current state as previous state and, as predicted next
    state, the first legal successor of that state. *)
Theorem dry_run_writes_nothing (cfg : Config) (plan : option string)
        (llmClient : llm.Client) (ctx : cycle.Context) (cycleID : string)
        (at_ : cycle.Times) (s : Store) :
  snd (cycle.ExecuteCycle cfg plan llmClient ctx cycleID at_ true s) = s
  /\ (states_in_enum s ->
      forall r,
        fst (cycle.ExecuteCycle cfg plan llmClient ctx cycleID at_ true s) = Ok r ->
        exists sel rest,
          selection.SelectNext (Selection cfg) s (cycle.tSelect at_) = Ok sel
          /\ In (selection.Task_ sel) (tasks s)
          /\ TaskID r = ID (selection.Task_ sel)
          /\ PrevState r = State_ (selection.Task_ sel)
          /\ statemachine.GetAllowedTransitions (PrevState r)
             = Ok (NextState r :: rest)
          /\ legal (PrevState r) (NextState r)).
Proof.
  unfold cycle.ExecuteCycle, bind, wrapf, query, ret. cbn [negb].
  destruct (selection.SelectNext _ _ _) as [sel|e] eqn:Hsel; cbn [fst snd].
  2:{ split; [reflexivity | discriminate]. }
  destruct (cycle.getAgentForTask cfg _) as [agent|e]; cbn [fst snd].
  2:{ split; [reflexivity | discriminate]. }
  unfold cycle.buildPrompt.
  destruct (SelectNext_selected _ _ _ _ Hsel) as [Hin Hterm].
  destruct (statemachine.GetAllowedTransitions _) as [[|first rest]|e] eqn:Hallowed;
    cbn [fst snd]; (split; [reflexivity|]); intros Henum r [= <-];
    destruct (first_successor _ (Henum _ Hin) Hterm) as (f & rest' & Hf & Hlegal);
    rewrite Hallowed in Hf; try discriminate.
  injection Hf as <- <-.
  exists sel, rest. cbn [TaskID PrevState NextState]. now repeat split.
Qed.

(** The witness of [dry_run_writes_nothing]: scenario 6. *)
Lemma dry_run_witness :
  states_in_enum sample_store
  /\ exists r,
       fst (cycle.ExecuteCycle sample_config None silent_agent never_cancelled
              "c1" sample_times true sample_store) = Ok r
       /\ snd (cycle.ExecuteCycle sample_config None silent_agent never_cancelled
                 "c1" sample_times true sample_store) = sample_store
       /\ PrevState r = ReadyForPlan
       /\ NextState r = Planning
       /\ legal (PrevState r) (NextState r).
Proof.
  assert (Henum : states_in_enum sample_store).
  { intros t [<-|[]]. now left. }
  split; [exact Henum|].
  destruct (dry_run_writes_nothing sample_config None silent_agent never_cancelled
              "c1" sample_times sample_store) as [Hs Hr].
  exists (mkCycleResult true "T1" ReadyForPlan Planning []).
  destruct (Hr Henum (mkCycleResult true "T1" ReadyForPlan Planning []) eq_refl)
    as (sel & rest & _ & _ & _ & _ & _ & Hlegal).
  split; [reflexivity|]. split; [exact Hs|].
  split; [reflexivity|]. split; [reflexivity | exact Hlegal].
Defined.

(** * The transition validator *)

Lemma GetTask_update_same (s : Store) (id : string) (st : State) (now : Time)
      (t : Task) :
  GetTask s id = Ok t ->
  GetTask (with_tasks s (map (fun t => if String.eqb (ID t) id
                                       then set_state t st now else t) (tasks s))) id
  = Ok (set_state t st now).
Proof.
  unfold GetTask. simpl. induction (tasks s) as [|x l IH]; simpl; [discriminate|].
  destruct (String.eqb (ID x) id) eqn:Hx; simpl; rewrite Hx.
  - now intros [= ->].
  - exact IH.
Qed.

Lemma GetTask_update_other (s : Store) (id id' : string) (st : State) (now : Time) :
  id' <> id ->
  GetTask (with_tasks s (map (fun t => if String.eqb (ID t) id
                                       then set_state t st now else t) (tasks s))) id'
  = GetTask s id'.
Proof.
  intros Hne. unfold GetTask. simpl. induction (tasks s) as [|x l IH]; simpl; [reflexivity|].
  destruct (String.eqb_spec (ID x) id) as [Hx|Hx]; simpl.
  - assert (Hf : String.eqb (ID x) id' = false) by (apply String.eqb_neq; congruence).
    rewrite Hf. exact IH.
  - destruct (String.eqb (ID x) id'); [reflexivity | exact IH].
Qed.

(** The validator either rejects and leaves the store as it was, or has
    passed its four checks and has written the new state. *)
Lemma ValidateAndTransition_inv (taskID : string) (newState : State)
      (note : string) (now : Time) (s : Store) :
  (is_ok (fst (statemachine.ValidateAndTransition taskID newState note now s)) = false
   /\ snd (statemachine.ValidateAndTransition taskID newState note now s) = s)
  \/ (exists task,
         GetTask s taskID = Ok task
         /\ statemachine.ValidateTransition (State_ task) newState = Ok tt
         /\ statemachine.validateDependencies s task newState = Ok tt
         /\ statemachine.validateRequiredHandovers s task newState = Ok tt
         /\ statemachine.ValidateAndTransition taskID newState note now s
            = (Ok tt,
               with_tasks s
                 (map (fun t => if String.eqb (ID t) taskID
                                then set_state t newState now else t) (tasks s)))).
Proof.
  unfold statemachine.ValidateAndTransition, bind, wrapf, query, exec, UpdateTaskState.
  destruct (GetTask s taskID) as [task|e]; [|left; now split].
  destruct (statemachine.ValidateTransition (State_ task) newState) as [[]|e] eqn:H1;
    [|left; now split].
  destruct (statemachine.validateDependencies s task newState) as [[]|e] eqn:H2;
    [|left; now split].
  destruct (statemachine.validateRequiredHandovers s task newState) as [[]|e] eqn:H3;
    [|left; now split].
  right. exists task. now repeat split.
Qed.




(** An alias handed to the validator as it is: the transition check
    normalizes it, the handover map is keyed on the raw names, so no
    artifact is asked for and the alias is what gets stored. *)
Example alias_skips_handover :
  let out := statemachine.ValidateAndTransition "T1" "ready_for_implmentation" ""
               200 planning_store in
  fst out = Ok tt
  /\ result_map State_ (GetTask (snd out) "T1") = Ok "ready_for_implmentation".
Proof. split; reflexivity. Qed.




(** * The handshake *)

(** With nothing writing to the store between its reads, every read of the
    retry loop finds the state of the snapshot: the loop is cancelled or runs
    to its end. *)
Lemma follow_up_loop_quiet (cfg : CompletionConfig) (ctx : cycle.Context)
      (taskID : string) (s : Store) (task : Task) (n : nat) :
  GetTask s taskID = Ok task ->
  forall retry result,
    cycle.follow_up_loop cfg ctx taskID (State_ task) n retry result s
    = (Err ErrCtx, s)
    \/ exists result',
         cycle.follow_up_loop cfg ctx taskID (State_ task) n retry result s
         = (Ok (result', false), s)
         /\ cycle.hSuccess result' = cycle.hSuccess result
         /\ cycle.FinalState result' = cycle.FinalState result.
Proof.
  intros Hget. induction n as [|n IH]; intros retry result; cbn [cycle.follow_up_loop].
  - right. exists result. now repeat split.
  - destruct (Nat.ltb 0 retry && ctx retry); [now left|].
    unfold bind, wrapf, query. rewrite Hget, String.eqb_refl. cbn [negb].
    destruct (IH (S retry)
                (cycle.mkHandshakeResult (cycle.hSuccess result)
                   (cycle.FinalState result) (cycle.hArtifactsCreated result)
                   (cycle.FollowUps result ++ [FollowUpTemplate cfg])%list
                   (cycle.Note result)))
      as [H|(result' & H & Hs & Hf)]; [now left|].
    right. exists result'. now repeat split.
Qed.

(** What [Enforce] returns when nothing writes to the store while it runs:
    never success; the final state is [needs_fixes], written by the recovery
    drop, or the state it found. *)
Lemma Enforce_quiet (cfg : CompletionConfig) (ctx : cycle.Context)
      (taskID : string) (llmResponse : llm.Response) (now : Time)
      (s s' : Store) (h : cycle.HandshakeResult) :
  cycle.Enforce cfg ctx taskID llmResponse now s = (Ok h, s') ->
  cycle.hSuccess h = false
  /\ exists task,
       GetTask s taskID = Ok task
       /\ ((RequireExplicitStateUpdate cfg = true
            /\ cycle.FinalState h = NeedsFixes
            /\ UpdateTaskState s taskID NeedsFixes (cycle.Note h) now = Ok s')
           \/ (RequireExplicitStateUpdate cfg = false
               /\ cycle.FinalState h = State_ task /\ s' = s)).
Proof.
  unfold cycle.Enforce, bind, wrapf, query.
  destruct (GetTask s taskID) as [task|e] eqn:Hget; [|discriminate].
  rewrite Hget, String.eqb_refl. cbn [negb].
  unfold cycle.enforceHandshake, bind, wrapf, exec, ret.
  destruct (follow_up_loop_quiet cfg ctx taskID s task
              (Z.to_nat (MaxRetries cfg)) Hget O
              (cycle.mkHandshakeResult false (State_ task) [] [] ""))
    as [->|(result' & -> & Hs & Hf)]; [discriminate|].
  cbn in Hs, Hf.
  destruct (RequireExplicitStateUpdate cfg); cbn.
  - intros [= <- <-]. cbn. split; [exact Hs|]. exists task. split; [reflexivity|].
    left. now repeat split.
  - intros [= <- <-]. split; [exact Hs|]. exists task. split; [reflexivity|].
    right. now repeat split.
Qed.

(** * State changes through the method surface *)

Lemma moves_legally_refl (s : Store) : moves_legally s s.
Proof. intros taskID task H. exists task. split; [exact H | now left]. Qed.

Lemma moves_legally_same_tasks (s s' : Store) :
  tasks s' = tasks s -> moves_legally s s'.
Proof.
  intros Ht taskID task H. exists task. split; [|now left].
  unfold GetTask in *. now rewrite Ht.
Qed.

Lemma moves_legally_update (s : Store) (taskID : string) (task : Task)
      (st : State) (now : Time) :
  GetTask s taskID = Ok task ->
  State_ task = st \/ legal (State_ task) st ->
  moves_legally s
    (with_tasks s (map (fun t => if String.eqb (ID t) taskID
                                 then set_state t st now else t) (tasks s))).
Proof.
  intros Hget Hst id t Ht.
  destruct (String.eqb_spec id taskID) as [->|Hne].
  - rewrite Hget in Ht. injection Ht as <-.
    exists (set_state task st now). split; [now apply GetTask_update_same|].
    cbn [State_ set_state]. destruct Hst as [<-|Hl]; [now left | now right].
  - exists t. split; [|now left]. now rewrite GetTask_update_other.
Qed.

(** Every request leaves every task in its state or in a legal successor
    of it: [tasks.update_state] is the one method that changes a state, and
    it goes through the Validator. *)
Lemma handleRequest_moves_legally (cfg : Config) (plan : option string)
      (now : Time) (req : mcp.JSONRPCRequest) (s : Store) :
  moves_legally s (snd (mcp.handleRequest cfg plan now req s)).
Proof.
  unfold mcp.handleRequest.
  destruct (assoc _ _) as [h|] eqn:Hh; [|apply moves_legally_refl].
  apply assoc_In in Hh. simpl in Hh.
  repeat (destruct Hh as [Hh|Hh]; [injection Hh as _ <-|]); [..|contradiction].
  3:{ (* tasks.update_state *)
    unfold mcp.TaskHandler.UpdateState.
    destruct (mcp.GetStringParam req "task_id") as [taskID|]; [|apply moves_legally_refl].
    destruct (mcp.GetStringParam req "state") as [stateStr|]; [|apply moves_legally_refl].
    destruct (mcp.GetOptionalStringParam req "note") as [note ?].
    destruct (ValidateAndTransition_inv taskID (NormalizeState stateStr) note now s)
      as [[Hrej Hs]|(task & Hget & Hlegal & _ & _ & Hout)].
    - destruct (statemachine.ValidateAndTransition _ _ _ _ s) as [[|] s'];
        cbn [fst snd] in *; [discriminate|]. subst s'. apply moves_legally_refl.
    - rewrite Hout. cbn [snd]. eapply moves_legally_update; [exact Hget | now right]. }
  3:{ (* tasks.append_note *)
    unfold mcp.TaskHandler.AppendNote.
    destruct (mcp.GetStringParam req "task_id") as [taskID|]; [|apply moves_legally_refl].
    destruct (mcp.GetStringParam req "note") as [note|]; [|apply moves_legally_refl].
    destruct (GetTask s taskID) as [task|] eqn:Hget; [|apply moves_legally_refl].
    cbn [UpdateTaskState snd]. eapply moves_legally_update; [exact Hget | now left]. }
  4:{ (* artifacts.upsert *)
    unfold mcp.ArtifactHandler.Upsert.
    destruct (mcp.GetStringParam req "task_id") as [taskID|]; [|apply moves_legally_refl].
    destruct (mcp.GetStringParam req "name") as [name|]; [|apply moves_legally_refl].
    destruct (mcp.GetStringParam req "content") as [content|]; [|apply moves_legally_refl].
    unfold UpsertArtifact. cbv zeta.
    destruct (negb _); [apply moves_legally_refl|].
    destruct (existsb _ _); [apply moves_legally_refl|].
    cbn [snd]. now apply moves_legally_same_tasks. }
  all: cbv [mcp.TaskHandler.GetNext mcp.TaskHandler.Get mcp.TaskHandler.List
            mcp.ArtifactHandler.Get mcp.ArtifactHandler.List
            mcp.RequirementHandler.List mcp.PlanHandler.Read
            mcp.handleInitialize mcp.handlePing];
    repeat case_match; apply moves_legally_refl.
Qed.

Lemma serve_legal_path (cfg : Config) (plan : option string)
      (calls : list (Time * mcp.JSONRPCRequest)) :
  forall s taskID task,
    GetTask s taskID = Ok task ->
    exists task', GetTask (snd (mcp.serve cfg plan calls s)) taskID = Ok task'
                  /\ legal_path (State_ task) (State_ task').
Proof.
  induction calls as [|[now req] calls IH]; intros s taskID task Hget;
    cbn [mcp.serve].
  - exists task. split; [exact Hget | apply rt_refl].
  - destruct (mcp.handleRequest cfg plan now req s) as [resp s1] eqn:Hstep.
    destruct (handleRequest_moves_legally cfg plan now req s taskID task Hget)
      as (task1 & Hget1 & Hmove).
    rewrite Hstep in Hget1. cbn [snd] in Hget1.
    destruct (IH s1 taskID task1 Hget1) as (task' & Hget' & Hpath).
    destruct (mcp.serve cfg plan calls s1) as [resps s2]. cbn [snd] in *.
    exists task'. split; [exact Hget'|].
    apply rt_trans with (y := State_ task1); [|exact Hpath].
    destruct Hmove as [->|Hl]; [apply rt_refl | now apply rt_step].
Qed.

Lemma GetTask_of_member (s : Store) (task : Task) :
  tasks_pk s -> In task (tasks s) -> GetTask s (ID task) = Ok task.
Proof.
  unfold tasks_pk, GetTask. induction (tasks s) as [|x l IH]; simpl; [contradiction|].
  intros Hnd [->|Hin].
  - now rewrite String.eqb_refl.
  - apply NoDup_cons_iff in Hnd. destruct Hnd as [Hx Hnd].
    destruct (String.eqb_spec (ID x) (ID task)) as [Heq|_]; [|now apply IH].
    exfalso. apply Hx. rewrite Heq. now apply in_map.
Qed.

Lemma first_allowed_legal (st first : State) (rest : list State) :
  statemachine.GetAllowedTransitions st = Ok (first :: rest) -> legal st first.
Proof.
  unfold statemachine.GetAllowedTransitions, legal, statemachine.ValidateTransition.
  destruct (assoc (NormalizeState st) statemachine.ValidTransitions) as [l|] eqn:Hl;
    [|discriminate].
  intros [= ->]. apply assoc_In in Hl. cbn in Hl.
  repeat (destruct Hl as [Hl|Hl]; [now inversion Hl|]). contradiction.
Qed.

(** C2, counterexample: the agent ends without declaring a transition; the
    handshake drops the task from [ready_for_plan] to [needs_fixes], the
    CycleResult reports success, and [needs_fixes] is not a legal successor
    of [ready_for_plan].  With the recovery drop switched off the same cycle
    reports success with the state it started from, which is no legal
    successor of itself either. *)
Lemma recovery_drop_not_legal :
  (exists r,
      fst (cycle.ExecuteCycle sample_config None silent_agent never_cancelled
             "c1" sample_times false sample_store) = Ok r
      /\ Success r = true
      /\ PrevState r = ReadyForPlan
      /\ NextState r = NeedsFixes
      /\ ~ legal (PrevState r) (NextState r))
  /\ (exists r,
        fst (cycle.ExecuteCycle patient_config None silent_agent never_cancelled
               "c1" sample_times false sample_store) = Ok r
        /\ Success r = true
        /\ PrevState r = ReadyForPlan
        /\ NextState r = ReadyForPlan
        /\ ~ legal (PrevState r) (NextState r)).
Proof.
  split; (eexists; split; [reflexivity|]; repeat split; discriminate).
Qed.

(** C2, amended: every state change that a request of the method surface
    makes goes through the Validator's transition check, so each request
    leaves each task in its state or in a legal successor of it; the
    handshake's recovery drop to [needs_fixes] is written by
    [Store.UpdateTaskState] without that check; hence, for every cycle whose
    CycleResult reports success, the post-state is [needs_fixes] or is
    reached from the pre-state by zero or more legal transitions of
    section 4.1. *)
Theorem cycle_next_state (cfg : Config) (plan : option string)
        (llmClient : llm.Client) (ctx : cycle.Context) (cycleID : string)
        (at_ : cycle.Times) (dryRun : bool) (s : Store) :
  (forall now req, moves_legally s (snd (mcp.handleRequest cfg plan now req s)))
  /\ (tasks_pk s ->
      forall r,
        fst (cycle.ExecuteCycle cfg plan llmClient ctx cycleID at_ dryRun s) = Ok r ->
        Success r = true ->
        NextState r = NeedsFixes \/ legal_path (PrevState r) (NextState r)).
Proof.
  split; [intros now req; apply handleRequest_moves_legally|].
  intros Hpk r. unfold cycle.ExecuteCycle, bind, wrapf, query, ret.
  destruct (selection.SelectNext _ _ _) as [sel|e] eqn:Hsel; [|discriminate].
  destruct (cycle.getAgentForTask cfg _) as [agent|e]; [|discriminate].
  destruct (cycle.buildPrompt _ agent) as [prompt|e]; [|discriminate].
  destruct (SelectNext_selected _ _ _ _ Hsel) as [Hin _].
  pose proof (GetTask_of_member s _ Hpk Hin) as Hget.
  destruct dryRun; cbn [negb].
  - destruct (statemachine.GetAllowedTransitions _) as [[|first rest]|e] eqn:Hallowed;
      cbn [fst]; intros [= <-] _; right; cbn [PrevState NextState];
      try apply rt_refl.
    apply rt_step. eapply first_allowed_legal. exact Hallowed.
  - cbv zeta.
    destruct (serve_legal_path cfg plan (llm.calls (llmClient prompt (Name agent)))
                s _ _ Hget) as (task1 & Hget1 & Hpath).
    destruct (llm.outcome (llmClient prompt (Name agent))) as [resp|e];
      [|discriminate].
    destruct (cycle.Enforce _ _ _ _ _ _) as [[h|e] s2] eqn:Henforce; [|discriminate].
    apply Enforce_quiet in Henforce.
    destruct Henforce as (_ & task1' & Hget1' & Hfinal).
    rewrite Hget1 in Hget1'. injection Hget1' as <-.
    unfold audit.LogCycle, exec.
    destruct (CreateAuditLog _ _ _); [|discriminate].
    cbn [fst]. intros [= <-] _. cbn [PrevState NextState].
    destruct Hfinal as [(_ & -> & _)|(_ & -> & _)]; [now left | now right].
Qed.

(** The witness of [cycle_next_state]: the agent declares
    [ready_for_plan -> planning] and the configuration does not ask for the
    recovery drop; the cycle reports [planning], one legal transition away. *)
Lemma cycle_next_state_witness :
  let r := mkCycleResult true "T1" ReadyForPlan Planning [] in
  tasks_pk sample_store
  /\ fst (cycle.ExecuteCycle patient_config None diligent_agent never_cancelled
            "c1" sample_times false sample_store) = Ok r
  /\ Success r = true
  /\ (NextState r = NeedsFixes \/ legal_path (PrevState r) (NextState r)).
Proof.
  intros r.
  assert (Hpk : tasks_pk sample_store).
  { constructor; [intros [] | constructor]. }
  assert (Hrun : fst (cycle.ExecuteCycle patient_config None diligent_agent
                        never_cancelled "c1" sample_times false sample_store) = Ok r)
    by reflexivity.
  split; [exact Hpk|]. split; [exact Hrun|]. split; [reflexivity|].
  exact (proj2 (cycle_next_state patient_config None diligent_agent never_cancelled
                  "c1" sample_times false sample_store) Hpk r Hrun eq_refl).
Defined.

(** C1: the agent performs the legal [tasks.update_state] from
    [ready_for_plan] to [planning] while it runs.  The enforcer, run after
    the agent has ended, takes its snapshot then, finds [planning] twice,
    enters the follow-up loop, reports [success = false] after two
    follow-ups and overwrites the task's state with [needs_fixes]; the cycle
    reports [needs_fixes] as the next state. *)
Theorem handshake_misses_declared_transition :
  let s1 := snd (mcp.serve sample_config None
                   (llm.calls (diligent_agent "" "System Architect")) sample_store) in
  let out := cycle.Enforce (Completion sample_config) never_cancelled "T1"
               (llm.mkResponse true "done") 300 s1 in
  legal ReadyForPlan Planning
  /\ (exists task, GetTask sample_store "T1" = Ok task /\ State_ task = ReadyForPlan)
  /\ (exists task, GetTask s1 "T1" = Ok task /\ State_ task = Planning)
  /\ (exists h, fst out = Ok h
                /\ cycle.hSuccess h = false
                /\ cycle.FinalState h = NeedsFixes
                /\ length (cycle.FollowUps h) = 2%nat)
  /\ (exists task, GetTask (snd out) "T1" = Ok task /\ State_ task = NeedsFixes)
  /\ fst (cycle.ExecuteCycle sample_config None diligent_agent never_cancelled
            "c1" sample_times false sample_store)
     = Ok (mkCycleResult true "T1" ReadyForPlan NeedsFixes []).
Proof.
  cbv zeta. split; [reflexivity|].
  split; [eexists; split; reflexivity|].
  split; [eexists; split; reflexivity|].
  split; [eexists; repeat split; reflexivity|].
  split; [eexists; split; reflexivity|].
  reflexivity.
Qed.

(** * The state machine *)

Lemma NormalizeState_cases (st : string) :
  NormalizeState st = st \/ In (st, NormalizeState st) StateAliases.
Proof.
  unfold NormalizeState.
  destruct (assoc st StateAliases) as [alias|] eqn:Ha; [|now left].
  right. now apply assoc_In.
Qed.

Lemma assoc_ValidTransitions (st : string) (allowed : list State) :
  assoc st statemachine.ValidTransitions = Some allowed ->
  In (st, allowed) statemachine.ValidTransitions.
Proof. apply assoc_In. Qed.

Lemma NormalizeState_idempotent (st : string) :
  NormalizeState (NormalizeState st) = NormalizeState st.
Proof.
  destruct (NormalizeState_cases st) as [Heq|Hin]; [now rewrite !Heq|].
  cbn in Hin.
  repeat (destruct Hin as [Hin|Hin]; [injection Hin as _ <-; reflexivity|]).
  contradiction.
Qed.

Lemma NormalizeState_enum (st : State) :
  In st statemachine.GetAllStates -> NormalizeState st = st.
Proof.
  intros Hin. cbn in Hin.
  repeat (destruct Hin as [Hin|Hin]; [now subst|]). contradiction.
Qed.

Lemma IsTerminalState_Done (st : State) :
  statemachine.IsTerminalState st = true -> st = Done.
Proof.
  unfold statemachine.IsTerminalState.
  destruct (assoc (NormalizeState st) statemachine.ValidTransitions)
    as [allowed|] eqn:Ha; [|discriminate].
  apply assoc_In in Ha. cbn in Ha.
  repeat (destruct Ha as [Ha|Ha];
          [injection Ha as Hst <-; try discriminate|]); [|contradiction].
  intros _. destruct (NormalizeState_cases st) as [Heq|Hin]; [congruence|].
  rewrite <- Hst in Hin. cbn in Hin.
  repeat (destruct Hin as [Hin|Hin]; [discriminate Hin|]). contradiction.
Qed.

(** X1: aliases are resolved once and for all: normalizing twice is
    normalizing once, the eleven states of the enum are their own normal
    form, and the transition check gives a state and its aliases the same
    verdict, with the same message. *)
Theorem normalization_stable (from to : State) :
  NormalizeState (NormalizeState from) = NormalizeState from
  /\ (In from statemachine.GetAllStates -> NormalizeState from = from)
  /\ statemachine.ValidateTransition (NormalizeState from) (NormalizeState to)
     = statemachine.ValidateTransition from to
  /\ statemachine.GetAllowedTransitions (NormalizeState from)
     = statemachine.GetAllowedTransitions from
  /\ statemachine.IsTerminalState (NormalizeState from)
     = statemachine.IsTerminalState from.
Proof.
  split; [apply NormalizeState_idempotent|].
  split; [apply NormalizeState_enum|].
  unfold statemachine.ValidateTransition, statemachine.GetAllowedTransitions,
    statemachine.IsTerminalState.
  now rewrite !NormalizeState_idempotent.
Qed.

(** The witness of [normalization_stable]. *)
Lemma normalization_stable_witness :
  In Committing statemachine.GetAllStates
  /\ NormalizeState Committing = Committing
  /\ statemachine.ValidateTransition "commiting" "DONE"
     = statemachine.ValidateTransition (NormalizeState "commiting") (NormalizeState "DONE").
Proof.
  assert (H : In Committing statemachine.GetAllStates) by (cbn; tauto).
  split; [exact H|].
  destruct (normalization_stable Committing Done) as (_ & Hfix & _).
  split; [exact (Hfix H)|].
  destruct (normalization_stable "commiting" "DONE") as (_ & _ & Hv & _).
  symmetry. exact Hv.
Defined.

(** X2: no state is its own successor: whatever the string, the transition
    check rejects the step from a state to itself, and the validator leaves
    the store as it was. *)
Theorem self_loop_rejected (st : State) :
  is_ok (statemachine.ValidateTransition st st) = false
  /\ forall s taskID task note now,
       GetTask s taskID = Ok task ->
       is_ok (fst (statemachine.ValidateAndTransition taskID (State_ task) note now s))
       = false
       /\ snd (statemachine.ValidateAndTransition taskID (State_ task) note now s) = s.
Proof.
  assert (Hself : forall x, is_ok (statemachine.ValidateTransition x x) = false).
  { intros x. unfold statemachine.ValidateTransition.
    destruct (assoc (NormalizeState x) statemachine.ValidTransitions)
      as [allowed|] eqn:Ha; [|reflexivity].
    apply assoc_In in Ha. cbn in Ha.
    repeat (destruct Ha as [Ha|Ha]; [injection Ha as <- <-; reflexivity|]).
    contradiction. }
  split; [apply Hself|].
  intros s taskID task note now Hget.
  unfold statemachine.ValidateAndTransition, bind, wrapf, query.
  rewrite Hget. specialize (Hself (State_ task)).
  destruct (statemachine.ValidateTransition (State_ task) (State_ task));
    [discriminate | now split].
Qed.

(** The witness of [self_loop_rejected]: the boundary case
    [validate_and_transition(t, s_current)]. *)
Lemma self_loop_rejected_witness :
  GetTask sample_store "T1" = Ok (sample_task "T1" ReadyForPlan RawEmpty)
  /\ is_ok (fst (statemachine.ValidateAndTransition "T1" ReadyForPlan "" 200
                   sample_store)) = false.
Proof.
  assert (H : GetTask sample_store "T1" = Ok (sample_task "T1" ReadyForPlan RawEmpty))
    by reflexivity.
  split; [exact H|].
  exact (proj1 (proj2 (self_loop_rejected ReadyForPlan) sample_store "T1" _ "" 200 H)).
Defined.

(** X3: [DONE] is the one terminal state, under every spelling: a state is
    terminal exactly when it is the string "DONE", and the transition check
    rejects every step out of it. *)
Theorem done_is_terminal (st to : State) :
  (statemachine.IsTerminalState st = true <-> st = Done)
  /\ is_ok (statemachine.ValidateTransition Done to) = false
  /\ statemachine.GetAllowedTransitions Done = Ok [].
Proof.
  split; [|split; [|reflexivity]].
  - split; [apply IsTerminalState_Done | now intros ->].
  - unfold statemachine.ValidateTransition. cbn. reflexivity.
Qed.

(** Every state of the enum leads to [DONE]. *)
Lemma reaches_done (st : State) :
  In st statemachine.GetAllStates -> legal_path st Done.
Proof.
  assert (step : forall a b, legal a b -> legal_path b Done -> legal_path a Done).
  { intros a b Hl Hp. eapply rt_trans; [apply rt_step; exact Hl | exact Hp]. }
  assert (H0 : legal_path Done Done) by apply rt_refl.
  assert (H1 : legal_path Committing Done) by (apply (step _ Done); [reflexivity|exact H0]).
  assert (H2 : legal_path ReadyForCommit Done)
    by (apply (step _ Committing); [reflexivity|exact H1]).
  assert (H3 : legal_path Reviewing Done)
    by (apply (step _ ReadyForCommit); [reflexivity|exact H2]).
  assert (H4 : legal_path ReadyForCodeReview Done)
    by (apply (step _ Reviewing); [reflexivity|exact H3]).
  assert (H5 : legal_path Implementing Done)
    by (apply (step _ ReadyForCodeReview); [reflexivity|exact H4]).
  assert (H6 : legal_path ReadyForImplementation Done)
    by (apply (step _ Implementing); [reflexivity|exact H5]).
  assert (H7 : legal_path Planning Done)
    by (apply (step _ ReadyForImplementation); [reflexivity|exact H6]).
  assert (H8 : legal_path ReadyForPlan Done)
    by (apply (step _ Planning); [reflexivity|exact H7]).
  assert (H9 : legal_path Fixing Done)
    by (apply (step _ ReadyForCodeReview); [reflexivity|exact H4]).
  assert (H10 : legal_path NeedsFixes Done)
    by (apply (step _ Fixing); [reflexivity|exact H9]).
  intros Hin. cbn in Hin.
  repeat (destruct Hin as [Hin|Hin]; [subst st; assumption|]). contradiction.
Qed.

(** Both ends of an accepted transition are states of the enum. *)
Lemma legal_in_enum (from to : State) :
  legal from to ->
  In (NormalizeState from) statemachine.GetAllStates
  /\ In (NormalizeState to) statemachine.GetAllStates.
Proof.
  unfold legal, statemachine.ValidateTransition.
  destruct (assoc (NormalizeState from) statemachine.ValidTransitions)
    as [allowed|] eqn:Ha; [|discriminate].
  destruct (existsb (fun allowedState => String.eqb (NormalizeState to) allowedState)
                    allowed) eqn:He; [|discriminate]. intros _.
  apply existsb_exists in He. destruct He as (x & Hx & Heq).
  apply String.eqb_eq in Heq. subst x.
  apply assoc_In in Ha. cbn in Ha.
  repeat (destruct Ha as [Ha|Ha];
          [injection Ha as <- <-; split; [cbn; tauto|];
           cbn in Hx; repeat (destruct Hx as [Hx|Hx]; [rewrite <- Hx; cbn; tauto|]);
           contradiction|]).
  contradiction.
Qed.

(** X4: the transition table is closed and has no dead end: a legal
    transition starts and ends in a state of the enum, every state of the
    enum but [DONE] has a legal successor, and [DONE] can be reached from
    every state of the enum by legal transitions. *)
Theorem state_machine_closed_and_live (from to : State) :
  (legal from to ->
   In (NormalizeState from) statemachine.GetAllStates
   /\ In (NormalizeState to) statemachine.GetAllStates)
  /\ (In from statemachine.GetAllStates ->
      (from <> Done -> exists next, legal from next)
      /\ legal_path from Done).
Proof.
  split; [apply legal_in_enum|].
  - intros Hin. split; [|now apply reaches_done].
    intros Hne.
    destruct (first_successor from) as (next & rest & _ & Hl).
    + now rewrite NormalizeState_enum.
    + destruct (statemachine.IsTerminalState from) eqn:Ht; [|reflexivity].
      now apply IsTerminalState_Done in Ht.
    + now exists next.
Qed.

(** The witness of [state_machine_closed_and_live]. *)
Lemma state_machine_closed_and_live_witness :
  legal Reviewing NeedsFixes
  /\ In NeedsFixes statemachine.GetAllStates
  /\ NeedsFixes <> Done
  /\ (exists next, legal NeedsFixes next)
  /\ legal_path NeedsFixes Done.
Proof.
  assert (H1 : legal Reviewing NeedsFixes) by reflexivity.
  assert (H2 : In NeedsFixes statemachine.GetAllStates) by (cbn; tauto).
  assert (H3 : NeedsFixes <> Done) by discriminate.
  destruct (state_machine_closed_and_live NeedsFixes Done) as [_ H].
  destruct (H H2) as [Hnext Hpath].
  repeat (split; [assumption|]). split; [exact (Hnext H3) | exact Hpath].
Defined.

(** * The store *)

Lemma with_tasks_same (s : Store) : with_tasks s (tasks s) = s.
Proof. now destruct s. Qed.

Lemma map_unless_none {A} (p : A -> bool) (f : A -> A) (l : list A) :
  find p l = None -> map (fun x => if p x then f x else x) l = l.
Proof.
  induction l as [|x l IH]; simpl; [reflexivity|].
  destruct (p x); [discriminate|]. intros H. now rewrite IH.
Qed.

Lemma map_ID_update (l : list Task) (id : string) (f : Task -> Task) :
  (forall t, ID (f t) = ID t) ->
  map ID (map (fun t => if String.eqb (ID t) id then f t else t) l) = map ID l.
Proof.
  intros Hf. induction l as [|x l IH]; simpl; [reflexivity|].
  rewrite IH. now destruct (String.eqb (ID x) id); [rewrite Hf|].
Qed.



(** X5: [UpdateTaskState] always succeeds; it rewrites the state and the
    update time of the task with the given id and nothing else: the other
    tasks, the ids, the other columns of the task and the other tables are
    as before; and for an id that names no task it succeeds all the same,
    leaving the store exactly as it was. *)
Theorem UpdateTaskState_frame (s : Store) (id : string) (st : State)
        (note : string) (now : Time) :
  exists s',
    UpdateTaskState s id st note now = Ok s'
    /\ requirements s' = requirements s
    /\ artifacts s' = artifacts s
    /\ audit_logs s' = audit_logs s
    /\ map ID (tasks s') = map ID (tasks s)
    /\ (forall id', id' <> id -> GetTask s' id' = GetTask s id')
    /\ (forall t, GetTask s id = Ok t -> GetTask s' id = Ok (set_state t st now))
    /\ (GetTask s id = Err ErrNoRows -> s' = s).
Proof.
  eexists. split; [reflexivity|]. repeat (split; [reflexivity|]).
  split; [now apply map_ID_update|].
  split; [intros id' Hne; now apply GetTask_update_other|].
  split; [intros t Ht; now apply GetTask_update_same|].
  unfold GetTask. destruct (find _ (tasks s)) eqn:Hf; [discriminate|]. intros _.
  rewrite (map_unless_none (fun t => String.eqb (ID t) id)
             (fun t => set_state t st now) _ Hf).
  apply with_tasks_same.
Qed.

(** The witness of [UpdateTaskState_frame]: an update for an id that names
    no task. *)
Lemma UpdateTaskState_frame_witness :
  GetTask sample_store "ghost" = Err ErrNoRows
  /\ UpdateTaskState sample_store "ghost" Planning "" 200 = Ok sample_store.
Proof.
  assert (H : GetTask sample_store "ghost" = Err ErrNoRows) by reflexivity.
  split; [exact H|].
  destruct (UpdateTaskState_frame sample_store "ghost" Planning "" 200)
    as (s' & Hup & _ & _ & _ & _ & _ & _ & Hsame).
  rewrite Hup. f_equal. exact (Hsame H).
Defined.







Lemma sort_by_length {A} (less : A -> A -> bool) (l : list A) :
  length (sort_by less l) = length l.
Proof. apply Permutation_length, sort_by_perm. Qed.




(** ** The order of strings *)

Lemma string_compare_trans (a b c : string) :
  String.compare a b = Lt -> String.compare b c = Lt -> String.compare a c = Lt.
Proof.
  intros H1 H2.
  apply OrderedTypeEx.String_as_OT.cmp_lt in H1, H2.
  apply OrderedTypeEx.String_as_OT.cmp_lt.
  eapply OrderedTypeEx.String_as_OT.lt_trans; eassumption.
Qed.

Lemma string_compare_refl (a : string) : String.compare a a = Eq.
Proof. now apply OrderedTypeEx.String_as_OT.cmp_eq. Qed.

Lemma string_ltb_lt (a b : string) : String.ltb a b = true <-> String.compare a b = Lt.
Proof. unfold String.ltb. destruct (String.compare a b); split; congruence. Qed.

Lemma string_compare_gt (a b : string) :
  String.compare a b = Gt <-> String.compare b a = Lt.
Proof.
  rewrite (String.compare_antisym a b).
  destruct (String.compare b a); cbn; split; congruence.
Qed.



(** * The audit log, continued *)










Lemma StronglySorted_app_inv {A} (R : A -> A -> Prop) (l1 l2 : list A) :
  StronglySorted R (l1 ++ l2) ->
  StronglySorted R l1 /\ StronglySorted R l2
  /\ forall a b, In a l1 -> In b l2 -> R a b.
Proof.
  induction l1 as [|x l1 IH]; simpl; intros Hs.
  - split; [constructor|]. split; [exact Hs|]. intros a b [].
  - apply StronglySorted_inv in Hs. destruct Hs as [Hs Hall].
    destruct (IH Hs) as (H1 & H2 & H12).
    apply Forall_app in Hall. destruct Hall as [Hall1 Hall2].
    split; [now constructor|]. split; [exact H2|].
    intros a b [<-|Ha] Hb; [|now apply H12].
    rewrite Forall_forall in Hall2. now apply Hall2.
Qed.

(** X13: [GetRecentAuditEntries] returns the most recent entries of the
    whole log, newest first: the rows it reports and the rows it leaves out
    make up the log, no row left out is newer than a reported one, a
    non-negative limit bounds the number of reported rows (all of them when
    the log is shorter) and a negative limit leaves nothing out.  Each
    reported entry carries the title of its task when the task is stored. *)
Theorem recent_entries_most_recent (s : Store) (limit : int) :
  exists kept dropped,
    sqlite.GetRecentAuditEntries s limit = Ok (map (sqlite.recent_entry s) kept)
    /\ Permutation (kept ++ dropped)%list (audit_logs s)
    /\ StronglySorted (fun a b => lCreatedAt b <= lCreatedAt a) kept
    /\ (forall a b, In a kept -> In b dropped -> lCreatedAt b <= lCreatedAt a)
    /\ (0 <= limit ->
        List.length kept = Nat.min (Z.to_nat limit) (List.length (audit_logs s)))
    /\ (limit < 0 -> dropped = [])
    /\ (forall l t, In l kept -> GetTask s (lTaskID l) = Ok t ->
                    lSelectionReason (sqlite.recent_entry s l) = Title t).
Proof.
  set (sorted := sort_by (fun a b => lCreatedAt b <? lCreatedAt a) (audit_logs s)).
  assert (Hsorted : StronglySorted (fun a b => lCreatedAt b <= lCreatedAt a) sorted).
  { eapply StronglySorted_weaken; cycle 1.
    - apply (sort_by_sorted (fun a b : AuditLog => lCreatedAt b <? lCreatedAt a)).
      + intros a b H. order_cases.
      + intros a b c H1 H2. order_cases.
    - intros a b H. cbv beta in H. order_cases. }
  assert (Htitle : forall l t, GetTask s (lTaskID l) = Ok t ->
                               lSelectionReason (sqlite.recent_entry s l) = Title t).
  { intros l t Hg. unfold sqlite.recent_entry. cbn. now rewrite Hg. }
  unfold sqlite.GetRecentAuditEntries, sqlite.limit_rows. fold sorted.
  destruct (Z.ltb_spec limit 0) as [Hneg|Hpos].
  - exists sorted, []. split; [reflexivity|].
    split; [rewrite app_nil_r; apply sort_by_perm|].
    split; [exact Hsorted|]. split; [intros a b _ []|].
    split; [lia|]. split; [reflexivity|]. intros l t _. apply Htitle.
  - exists (firstn (Z.to_nat limit) sorted), (skipn (Z.to_nat limit) sorted).
    split; [reflexivity|].
    split; [rewrite firstn_skipn; apply sort_by_perm|].
    rewrite <- (firstn_skipn (Z.to_nat limit) sorted) in Hsorted.
    apply StronglySorted_app_inv in Hsorted. destruct Hsorted as (H1 & _ & H12).
    split; [exact H1|]. split; [exact H12|].
    split; [intros _; rewrite length_firstn; unfold sorted; now rewrite sort_by_length|].
    split; [lia|]. intros l t _. apply Htitle.
Qed.

(** * The validator, continued *)

Lemma check_dependencies_spec (s : Store) (deps : list string) :
  statemachine.check_dependencies s deps = Ok tt
  <-> Forall (fun d => exists t, GetTask s d = Ok t /\ State_ t = Done) deps.
Proof.
  induction deps as [|d deps IH]; simpl.
  - split; [constructor | reflexivity].
  - destruct (GetTask s d) as [t|e] eqn:Hg.
    + destruct (String.eqb_spec (State_ t) Done) as [Heq|Hne]; simpl.
      * rewrite IH. split.
        -- intros H. constructor; [now exists t | exact H].
        -- intros H. now apply Forall_inv_tail in H.
      * split; [discriminate|]. intros H. apply Forall_inv in H.
        destruct H as (t' & Ht' & H). rewrite Hg in Ht'.
        injection Ht' as <-. contradiction.
    + split; [discriminate|]. intros H. apply Forall_inv in H.
      destruct H as (t' & Ht' & _). rewrite Hg in Ht'. discriminate.
Qed.

Lemma is_work_state (newState : State) :
  existsb (fun state => String.eqb newState state) statemachine.workStates = true
  <-> In newState statemachine.workStates.
Proof.
  rewrite existsb_exists. split.
  - intros (x & Hin & Heq). apply String.eqb_eq in Heq. now subst.
  - intros Hin. exists newState. split; [exact Hin | apply String.eqb_refl].
Qed.

Lemma blocked_by_check (s : Store) (deps : list string) :
  fst (selection.blocked_by s deps) = false
  <-> statemachine.check_dependencies s deps = Ok tt.
Proof.
  induction deps as [|d deps IH]; simpl; [tauto|].
  destruct (GetTask s d) as [t|e]; [|split; discriminate].
  destruct (negb (String.eqb (State_ t) Done)); [split; discriminate | exact IH].
Qed.

(** X14: the dependency gate of the validator.  A target that is not
    literally one of the four work states passes unchecked, and so does
    every alias, also the one of [committing].  For a work state the gate
    opens exactly when the dependency list decodes and every id of it names
    a stored task in DONE; under strict dependencies this is exactly when
    the selector classifies the task as not blocked. *)
Theorem dependency_gate (cfg : SelectionConfig) (s : Store) (task : Task)
        (newState : State) :
  (~ In newState statemachine.workStates ->
   statemachine.validateDependencies s task newState = Ok tt)
  /\ (assoc newState StateAliases <> None ->
      statemachine.validateDependencies s task newState = Ok tt)
  /\ (In newState statemachine.workStates ->
      (statemachine.validateDependencies s task newState = Ok tt
       <-> Dependencies task <> RawMalformed
           /\ forall deps, Dependencies task = RawStrings deps ->
                Forall (fun d => exists t, GetTask s d = Ok t /\ State_ t = Done) deps)
      /\ (DependencyStrict cfg = true ->
          (statemachine.validateDependencies s task newState = Ok tt
           <-> fst (selection.isBlockedByDependencies cfg s task) = false))).
Proof.
  assert (Hskip : ~ In newState statemachine.workStates ->
                  statemachine.validateDependencies s task newState = Ok tt).
  { intros Hn. unfold statemachine.validateDependencies.
    destruct (existsb (fun state => String.eqb newState state) statemachine.workStates)
      eqn:He; [|reflexivity].
    apply is_work_state in He. contradiction. }
  split; [exact Hskip|]. split.
  - intros Ha. apply Hskip. intros Hin. apply Ha.
    cbn in Hin. decompose [or] Hin; try contradiction; subst; reflexivity.
  - intros Hin. apply is_work_state in Hin.
    unfold statemachine.validateDependencies, selection.isBlockedByDependencies.
    rewrite Hin. cbn [negb]. split.
    + destruct (Dependencies task) as [| |deps]; simpl.
      * split; [|reflexivity]. intros _. split; [discriminate|]. discriminate.
      * split; [discriminate|]. intros [H _]. now contradiction H.
      * rewrite check_dependencies_spec. split.
        -- intros H. split; [discriminate|]. now intros deps' [= <-].
        -- intros [_ H]. now apply H.
    + intros ->. cbn [negb].
      destruct (Dependencies task) as [| |deps]; simpl.
      * tauto.
      * split; discriminate.
      * symmetry. apply blocked_by_check.
Qed.

(** The witness of [dependency_gate]: the task whose dependency names no
    task may not enter [planning], and is blocked for the selector. *)
Lemma dependency_gate_witness :
  In Planning statemachine.workStates
  /\ DependencyStrict (Selection sample_config) = true
  /\ (statemachine.validateDependencies orphan_store orphan_task Planning = Ok tt
      <-> fst (selection.isBlockedByDependencies (Selection sample_config)
                 orphan_store orphan_task) = false)
  /\ statemachine.validateDependencies orphan_store orphan_task "commiting" = Ok tt.
Proof.
  assert (H1 : In Planning statemachine.workStates) by (now left).
  assert (H2 : DependencyStrict (Selection sample_config) = true) by reflexivity.
  assert (H3 : assoc "commiting" StateAliases <> None) by discriminate.
  pose proof (dependency_gate (Selection sample_config) orphan_store orphan_task
                              Planning) as (_ & _ & Hw).
  pose proof (dependency_gate (Selection sample_config) orphan_store orphan_task
                              "commiting") as (_ & Ha & _).
  split; [exact H1|]. split; [exact H2|].
  split; [exact (proj2 (Hw H1) H2) | exact (Ha H3)].
Defined.







(** * The selector, continued *)













(** * The status report *)




Lemma filter_length_le {A} (p q : A -> bool) (l : list A) :
  (forall x, p x = true -> q x = true) ->
  (List.length (filter p l) <= List.length (filter q l))%nat.
Proof.
  intros Hpq. induction l as [|x l IH]; simpl; [lia|].
  destruct (p x) eqn:Hp; [rewrite (Hpq x Hp); simpl; lia|].
  destruct (q x); simpl; lia.
Qed.






(** * The method surface, continued *)

Lemma surface_frame_refl (s : Store) : surface_frame s s.
Proof.
  repeat (split; [reflexivity|]). exists []. now rewrite app_nil_r.
Qed.

Lemma surface_frame_trans (s1 s2 s3 : Store) :
  surface_frame s1 s2 -> surface_frame s2 s3 -> surface_frame s1 s3.
Proof.
  intros (R1 & L1 & T1 & a1 & A1) (R2 & L2 & T2 & a2 & A2).
  split; [congruence|]. split; [congruence|]. split; [congruence|].
  exists (a1 ++ a2)%list. now rewrite A2, A1, app_assoc.
Qed.

Lemma surface_frame_update (s : Store) (taskID : string) (st : State) (now : Time) :
  surface_frame s
    (with_tasks s (map (fun t => if String.eqb (ID t) taskID
                                 then set_state t st now else t) (tasks s))).
Proof.
  split; [reflexivity|]. split; [reflexivity|].
  split; [now apply map_ID_update|]. exists []. cbn. now rewrite app_nil_r.
Qed.

(** What every registered handler guarantees. *)
Lemma handler_contract (cfg : Config) (plan : option string) (now : Time)
      (req : mcp.JSONRPCRequest) (s : Store) (h : mcp.JSONRPCRequest -> mcp.Handler) :
  assoc (mcp.Method req) (mcp.handlers cfg plan now) = Some h ->
  mcp.ID (fst (h req s)) = mcp.rID req
  /\ ((exists p, mcp.Result (fst (h req s)) = Some p /\ mcp.Error (fst (h req s)) = None)
      \/ (exists e, mcp.Result (fst (h req s)) = None
                    /\ mcp.Error (fst (h req s)) = Some e
                    /\ mcp.Code e <> mcp.MethodNotFound
                    /\ snd (h req s) = s))
  /\ surface_frame s (snd (h req s))
  /\ (List.length (artifacts (snd (h req s))) <= S (List.length (artifacts s)))%nat
  /\ (~ In (mcp.Method req) writing_methods -> snd (h req s) = s).
Proof.
  intros Hh. apply assoc_In in Hh. simpl in Hh.
  repeat (destruct Hh as [Hh|Hh]; [injection Hh as Hm <-|]); [..|contradiction].
  3:{ (* tasks.update_state *)
    assert (Hw : ~ ~ In (mcp.Method req) writing_methods)
      by (intros Hn; apply Hn; rewrite <- Hm; simpl; tauto).
    unfold mcp.TaskHandler.UpdateState.
    destruct (mcp.GetStringParam req "task_id") as [taskID|]; [|surface_leaf s].
    destruct (mcp.GetStringParam req "state") as [stateStr|]; [|surface_leaf s].
    destruct (mcp.GetOptionalStringParam req "note") as [note ?].
    destruct (ValidateAndTransition_inv taskID (NormalizeState stateStr) note now s)
      as [[Hrej Hs]|(task & _ & _ & _ & _ & Hout)].
    - destruct (statemachine.ValidateAndTransition _ _ _ _ s) as [[|] s'];
        cbn [fst snd is_ok] in *; [discriminate|]. subst s'. surface_leaf s.
    - rewrite Hout. cbn [fst snd mcp.ID mcp.Result mcp.Error mcp.NewJSONRPCResponse].
      split; [reflexivity|]. split; [left; eexists; now split|].
      split; [apply surface_frame_update|]. split; [cbn; lia|]. tauto. }
  3:{ (* tasks.append_note *)
    assert (Hw : ~ ~ In (mcp.Method req) writing_methods)
      by (intros Hn; apply Hn; rewrite <- Hm; simpl; tauto).
    unfold mcp.TaskHandler.AppendNote.
    destruct (mcp.GetStringParam req "task_id") as [taskID|]; [|surface_leaf s].
    destruct (mcp.GetStringParam req "note") as [note|]; [|surface_leaf s].
    destruct (GetTask s taskID) as [task|]; [|surface_leaf s].
    cbn [UpdateTaskState fst snd mcp.ID mcp.Result mcp.Error mcp.NewJSONRPCResponse].
    split; [reflexivity|]. split; [left; eexists; now split|].
    split; [apply surface_frame_update|]. split; [cbn; lia|]. tauto. }
  4:{ (* artifacts.upsert *)
    assert (Hw : ~ ~ In (mcp.Method req) writing_methods)
      by (intros Hn; apply Hn; rewrite <- Hm; simpl; tauto).
    unfold mcp.ArtifactHandler.Upsert.
    destruct (mcp.GetStringParam req "task_id") as [taskID|]; [|surface_leaf s].
    destruct (mcp.GetStringParam req "name") as [name|]; [|surface_leaf s].
    destruct (mcp.GetStringParam req "content") as [content|]; [|surface_leaf s].
    unfold UpsertArtifact. cbv zeta.
    destruct (negb _); [surface_leaf s|].
    destruct (existsb _ _); [surface_leaf s|].
    cbn [fst snd mcp.ID mcp.Result mcp.Error mcp.NewJSONRPCResponse].
    split; [reflexivity|]. split; [left; eexists; now split|].
    split; [|split; [cbn; rewrite length_app; cbn; lia | tauto]].
    repeat (split; [reflexivity|]). now eexists. }
  all: cbv [mcp.TaskHandler.GetNext mcp.TaskHandler.Get mcp.TaskHandler.List
            mcp.ArtifactHandler.Get mcp.ArtifactHandler.List
            mcp.RequirementHandler.List mcp.PlanHandler.Read
            mcp.handleInitialize mcp.handlePing];
    repeat case_match; surface_leaf s.
Qed.

(** X19: the contract of the method surface.  Every response carries the
    id of its request and either a result or an error, never both; a
    request that is answered with an error has written nothing; only
    [update_state], [append_note] and [artifacts.upsert] write at all; no
    method creates or deletes a task, writes a requirement or an audit row,
    or removes an artifact, and a request adds at most one artifact; the
    code "method not found" is returned exactly for the methods that are not
    registered. *)
Theorem method_surface_contract (cfg : Config) (plan : option string) (now : Time)
        (req : mcp.JSONRPCRequest) (s : Store) :
  let response := fst (mcp.handleRequest cfg plan now req s) in
  let s' := snd (mcp.handleRequest cfg plan now req s) in
  mcp.ID response = mcp.rID req
  /\ well_formed response
  /\ (mcp.Error response <> None -> s' = s)
  /\ (~ In (mcp.Method req) writing_methods -> s' = s)
  /\ surface_frame s s'
  /\ (List.length (artifacts s') <= S (List.length (artifacts s)))%nat
  /\ (error_code response = Some mcp.MethodNotFound
      <-> assoc (mcp.Method req) (mcp.handlers cfg plan now) = None).
Proof.
  cbv zeta. unfold mcp.handleRequest.
  destruct (assoc (mcp.Method req) (mcp.handlers cfg plan now)) as [h|] eqn:Hh.
  - destruct (handler_contract cfg plan now req s h Hh)
      as (Hid & Hwf & Hframe & Hlen & Hro).
    split; [exact Hid|].
    split; [destruct Hwf as [(p & H1 & H2)|(e & H1 & H2 & _)];
            [left; exists p | right; exists e]; split; assumption|].
    split; [destruct Hwf as [(p & _ & H2)|(e & _ & _ & _ & H4)];
            [intros H; now contradiction H | intros _; exact H4]|].
    split; [exact Hro|]. split; [exact Hframe|]. split; [exact Hlen|].
    split; [|discriminate]. unfold error_code.
    destruct Hwf as [(p & _ & H2)|(e & _ & H2 & Hc & _)]; rewrite H2;
      [discriminate|]. cbn. intros [= H]. contradiction.
  - cbn [fst snd mcp.NewJSONRPCError mcp.ID mcp.Result mcp.Error].
    split; [reflexivity|]. split; [right; eexists; now split|].
    split; [reflexivity|]. split; [reflexivity|].
    split; [apply surface_frame_refl|]. split; [lia|]. now split.
Qed.




(** One request: the id, the shape of the response, the frame, and the
    store of a request that only reads. *)
Lemma handleRequest_step (cfg : Config) (plan : option string) (now : Time)
      (req : mcp.JSONRPCRequest) (s : Store) :
  mcp.ID (fst (mcp.handleRequest cfg plan now req s)) = mcp.rID req
  /\ well_formed (fst (mcp.handleRequest cfg plan now req s))
  /\ surface_frame s (snd (mcp.handleRequest cfg plan now req s))
  /\ (List.length (artifacts (snd (mcp.handleRequest cfg plan now req s)))
      <= S (List.length (artifacts s)))%nat
  /\ (~ In (mcp.Method req) writing_methods ->
      snd (mcp.handleRequest cfg plan now req s) = s).
Proof.
  unfold mcp.handleRequest.
  destruct (assoc (mcp.Method req) (mcp.handlers cfg plan now)) as [h|] eqn:Hh.
  - destruct (handler_contract cfg plan now req s h Hh)
      as (Hid & Hwf & Hframe & Hlen & Hro).
    split; [exact Hid|]. split; [|split; [exact Hframe|]; split; [exact Hlen|exact Hro]].
    destruct Hwf as [(p & H1 & H2)|(e & H1 & H2 & _)];
      [left; exists p | right; exists e]; split; assumption.
  - cbn [fst snd mcp.NewJSONRPCError mcp.ID mcp.Result mcp.Error].
    split; [reflexivity|]. split; [right; eexists; now split|].
    split; [apply surface_frame_refl|]. split; [lia | reflexivity].
Qed.


(** * The wire *)




(** * The handshake, continued *)

Lemma follow_up_loop_runs (cfg : CompletionConfig) (ctx : cycle.Context)
      (taskID : string) (s : Store) (task : Task) (n : nat) :
  GetTask s taskID = Ok task ->
  forall retry result,
    (forall k, (retry <= k < retry + n)%nat -> (0 < k)%nat -> ctx k = false) ->
    cycle.follow_up_loop cfg ctx taskID (State_ task) n retry result s
    = (Ok (cycle.mkHandshakeResult (cycle.hSuccess result) (cycle.FinalState result)
             (cycle.hArtifactsCreated result)
             (cycle.FollowUps result ++ repeat (FollowUpTemplate cfg) n)%list
             (cycle.Note result), false), s).
Proof.
  intros Hget. induction n as [|n IH]; intros retry result Hctx;
    cbn [cycle.follow_up_loop repeat].
  - rewrite app_nil_r. now destruct result.
  - assert (Hc : Nat.ltb 0 retry && ctx retry = false).
    { destruct (Nat.ltb_spec 0 retry) as [Hpos|]; [|reflexivity].
      cbn. apply Hctx; lia. }
    rewrite Hc. unfold bind, wrapf, query. rewrite Hget, String.eqb_refl. cbn [negb].
    rewrite IH by (intros k Hk; apply Hctx; lia).
    cbn. now rewrite <- app_assoc.
Qed.

Lemma follow_up_loop_cancelled (cfg : CompletionConfig) (ctx : cycle.Context)
      (taskID : string) (s : Store) (task : Task) (n : nat) :
  GetTask s taskID = Ok task ->
  forall retry result,
    (exists k, (retry <= k < retry + n)%nat /\ (0 < k)%nat /\ ctx k = true) ->
    cycle.follow_up_loop cfg ctx taskID (State_ task) n retry result s
    = (Err ErrCtx, s).
Proof.
  intros Hget. induction n as [|n IH]; intros retry result (k & Hk & Hpos & Hc);
    cbn [cycle.follow_up_loop]; [lia|].
  destruct (Nat.ltb 0 retry && ctx retry) eqn:Hhere; [reflexivity|].
  unfold bind, wrapf, query. rewrite Hget, String.eqb_refl. cbn [negb].
  apply IH. exists k. split; [|now split].
  destruct (Nat.eq_dec k retry) as [->|Hne]; [|lia].
  apply Nat.ltb_lt in Hpos. rewrite Hpos, Hc in Hhere. discriminate.
Qed.

(** X23: how the handshake ends.  For an id that names no task it fails and
    writes nothing.  For a stored task, the two reads of the state agree, so
    the loop of follow-ups runs: when the context is cancelled before one of
    the delays, the handshake fails with the error of the context and writes
    nothing; otherwise it reports no success, with one follow-up for each of
    the [max_retries] rounds and no artifact, and, when an explicit update
    is required, sets the task, and nothing else, to [needs_fixes]. *)
Theorem handshake_outcomes (cfg : CompletionConfig) (ctx : cycle.Context)
        (taskID : string) (llmResponse : llm.Response) (now : Time) (s : Store) :
  (GetTask s taskID = Err ErrNoRows ->
   cycle.Enforce cfg ctx taskID llmResponse now s
   = (Err (Wrapf "failed to get task" ErrNoRows), s))
  /\ forall task,
       GetTask s taskID = Ok task ->
       ((exists k, (0 < k < Z.to_nat (MaxRetries cfg))%nat /\ ctx k = true) ->
        cycle.Enforce cfg ctx taskID llmResponse now s = (Err ErrCtx, s))
       /\ ((forall k, (0 < k < Z.to_nat (MaxRetries cfg))%nat -> ctx k = false) ->
           exists h s',
             cycle.Enforce cfg ctx taskID llmResponse now s = (Ok h, s')
             /\ cycle.hSuccess h = false
             /\ cycle.FollowUps h
                = repeat (FollowUpTemplate cfg) (Z.to_nat (MaxRetries cfg))
             /\ cycle.hArtifactsCreated h = []
             /\ (RequireExplicitStateUpdate cfg = false ->
                 cycle.FinalState h = State_ task /\ s' = s)
             /\ (RequireExplicitStateUpdate cfg = true ->
                 cycle.FinalState h = NeedsFixes
                 /\ GetTask s' taskID = Ok (set_state task NeedsFixes now)
                 /\ (forall other, other <> taskID ->
                                   GetTask s' other = GetTask s other)
                 /\ surface_frame s s'
                 /\ artifacts s' = artifacts s)).
Proof.
  unfold cycle.Enforce, bind, wrapf, query. split.
  - intros ->. reflexivity.
  - intros task Hget. rewrite Hget. cbv beta iota. rewrite ?Hget. cbv beta iota.
    rewrite String.eqb_refl. cbn [negb].
    unfold cycle.enforceHandshake, bind, wrapf, exec, ret. split.
    + intros (k & Hk & Hc).
      rewrite (follow_up_loop_cancelled cfg ctx taskID s task _ Hget); [reflexivity|].
      exists k. split; [lia|]. split; [lia | exact Hc].
    + intros Hctx.
      rewrite (follow_up_loop_runs cfg ctx taskID s task _ Hget)
        by (intros k Hk Hpos; apply Hctx; lia).
      cbn [cycle.hSuccess cycle.FinalState cycle.hArtifactsCreated cycle.FollowUps
           cycle.Note app].
      destruct (RequireExplicitStateUpdate cfg); cbn [UpdateTaskState].
      * do 2 eexists. split; [reflexivity|]. cbn.
        repeat (split; [reflexivity|]). split; [discriminate|]. intros _.
        split; [reflexivity|].
        split; [now apply GetTask_update_same|].
        split; [intros other Hne; now apply GetTask_update_other|].
        split; [apply surface_frame_update | reflexivity].
      * do 2 eexists. split; [reflexivity|]. cbn.
        repeat (split; [reflexivity|]). split; [now split | discriminate].
Qed.

(** The witness of [handshake_outcomes]: two rounds of follow-ups, then
    [needs_fixes]. *)
Lemma handshake_outcomes_witness :
  GetTask planning_store "T1" = Ok (sample_task "T1" Planning RawEmpty)
  /\ (forall k, (0 < k < Z.to_nat (MaxRetries (Completion sample_config)))%nat ->
                never_cancelled k = false)
  /\ exists h s',
       cycle.Enforce (Completion sample_config) never_cancelled "T1"
                     (llm.mkResponse true "done") 300 planning_store = (Ok h, s')
       /\ List.length (cycle.FollowUps h) = 2%nat
       /\ cycle.FinalState h = NeedsFixes
       /\ result_map State_ (GetTask s' "T1") = Ok NeedsFixes.
Proof.
  assert (Hg : GetTask planning_store "T1" = Ok (sample_task "T1" Planning RawEmpty))
    by reflexivity.
  assert (Hc : forall k, (0 < k < Z.to_nat (MaxRetries (Completion sample_config)))%nat ->
                         never_cancelled k = false) by reflexivity.
  split; [exact Hg|]. split; [exact Hc|].
  destruct (proj2 (proj2 (handshake_outcomes (Completion sample_config) never_cancelled
                            "T1" (llm.mkResponse true "done") 300 planning_store)
                     _ Hg) Hc)
    as (h & s' & Hrun & _ & Hf & _ & _ & Hreq).
  destruct (Hreq eq_refl) as (Hfinal & Hg' & _).
  exists h, s'. split; [exact Hrun|]. split; [now rewrite Hf|].
  split; [exact Hfinal|]. now rewrite Hg'.
Defined.

Lemma Enforce_error_unchanged (cfg : CompletionConfig) (ctx : cycle.Context)
      (taskID : string) (llmResponse : llm.Response) (now : Time)
      (s s' : Store) (e : error) :
  cycle.Enforce cfg ctx taskID llmResponse now s = (Err e, s') -> s' = s.
Proof.
  unfold cycle.Enforce, bind, wrapf, query.
  destruct (GetTask s taskID) as [task|e0] eqn:Hget; [|now intros [= _ <-]].
  rewrite Hget, String.eqb_refl. cbn [negb].
  unfold cycle.enforceHandshake, bind, wrapf, exec, ret.
  destruct (follow_up_loop_quiet cfg ctx taskID s task
              (Z.to_nat (MaxRetries cfg)) Hget O
              (cycle.mkHandshakeResult false (State_ task) [] [] ""))
    as [->|(result' & -> & _)]; [now intros [= _ <-]|].
  destruct (RequireExplicitStateUpdate cfg); cbn; discriminate.
Qed.




(** * The cycle, continued *)

Lemma getAgentForTask_loop_spec (agents : list (string * Agent)) (task : Task) :
  (forall agent, cycle.getAgentForTask_loop agents task = Ok agent ->
                 In agent (map snd agents) /\ In (State_ task) (AllowedStates agent))
  /\ (is_ok (cycle.getAgentForTask_loop agents task) = false
      <-> forall agent, In agent (map snd agents) ->
                        ~ In (State_ task) (AllowedStates agent)).
Proof.
  induction agents as [|[id a] agents [IH1 IH2]]; cbn [cycle.getAgentForTask_loop map snd].
  - split; [discriminate|]. split; [intros _ agent [] | reflexivity].
  - destruct (existsb (fun allowedState => String.eqb allowedState (State_ task))
                      (AllowedStates a)) eqn:He.
    + assert (Hin : In (State_ task) (AllowedStates a)).
      { apply existsb_exists in He. destruct He as (x & Hx & Heq).
        apply String.eqb_eq in Heq. now subst x. }
      split.
      * intros agent [= <-]. split; [now left | exact Hin].
      * split; [discriminate|]. intros H. exfalso. apply (H a); [now left | exact Hin].
    + assert (Hout : ~ In (State_ task) (AllowedStates a)).
      { intros Hin. assert (Ht : existsb (fun allowedState =>
                                            String.eqb allowedState (State_ task))
                                         (AllowedStates a) = true).
        { apply existsb_exists. exists (State_ task).
          split; [exact Hin | apply String.eqb_refl]. }
        congruence. }
      split.
      * intros agent Hag. destruct (IH1 agent Hag) as [H1 H2].
        split; [now right | exact H2].
      * rewrite IH2. split.
        -- intros H agent [<-|Hin]; [exact Hout | now apply H].
        -- intros H agent Hin. apply H. now right.
Qed.

(** X25: the agent of a task.  The agent that the engine picks is one of
    the configured agents and lists the stored state of the task, as it is
    written, among its allowed states; the engine finds no agent exactly
    when no configured agent lists that state. *)
Theorem agent_for_task (cfg : Config) (task : Task) :
  (forall agent, cycle.getAgentForTask cfg task = Ok agent ->
                 In agent (map snd (Agents cfg))
                 /\ In (State_ task) (AllowedStates agent))
  /\ (cycle.getAgentForTask cfg task
      = Err (Errorf ("no agent configured for state " ++ State_ task))
      <-> forall agent, In agent (map snd (Agents cfg)) ->
                        ~ In (State_ task) (AllowedStates agent)).
Proof.
  unfold cycle.getAgentForTask.
  destruct (getAgentForTask_loop_spec (Agents cfg) task) as [H1 H2].
  split; [exact H1|]. rewrite <- H2.
  assert (Herr : forall agents e, cycle.getAgentForTask_loop agents task = Err e ->
                   e = Errorf ("no agent configured for state " ++ State_ task)).
  { induction agents as [|[id a] agents IH]; cbn [cycle.getAgentForTask_loop];
      intros e; [now intros [= <-]|].
    destruct (existsb _ (AllowedStates a)); [discriminate | apply IH]. }
  destruct (cycle.getAgentForTask_loop (Agents cfg) task) as [agent|e] eqn:Hl; cbn.
  - split; discriminate.
  - rewrite (Herr _ _ Hl). now split.
Qed.

Lemma surface_frame_serve (cfg : Config) (plan : option string)
      (calls : list (Time * mcp.JSONRPCRequest)) (s : Store) :
  surface_frame s (snd (mcp.serve cfg plan calls s)).
Proof.
  revert s. induction calls as [|[now req] calls IH]; intros s; cbn [mcp.serve].
  - apply surface_frame_refl.
  - destruct (handleRequest_step cfg plan now req s) as (_ & _ & Hfr & _).
    destruct (mcp.handleRequest cfg plan now req s) as [resp s1]. cbn [snd] in Hfr.
    specialize (IH s1). destruct (mcp.serve cfg plan calls s1) as [resps s2].
    cbn [snd] in *. now apply surface_frame_trans with s1.
Qed.

Lemma task_exists_ids (s s' : Store) (id : string) :
  map ID (tasks s') = map ID (tasks s) -> task_exists s' id = task_exists s id.
Proof.
  unfold task_exists. generalize (tasks s) as l. generalize (tasks s') as l'.
  induction l' as [|x l' IH]; intros [|y l]; cbn; try discriminate; [reflexivity|].
  intros [= Hxy Hrest]. now rewrite Hxy, (IH l Hrest).
Qed.

(** X26: the audit trail of a cycle.  A cycle that is not a dry run writes
    no requirement, creates and deletes no task and removes no artifact.
    When it fails it writes no audit row, and when the selection or the
    choice of the agent fails it writes nothing at all.  When it succeeds it
    has appended exactly one audit row, stamped with the time of the write:
    the row names the selected task, which was stored when the cycle began,
    the state the task had then and the state that the cycle reports, the
    id of the cycle, the result "success", and as actor an agent of the
    configuration that allows the state the task had. *)
Theorem cycle_audit_trail (cfg : Config) (plan : option string)
        (llmClient : llm.Client) (ctx : cycle.Context) (cycleID : string)
        (at_ : cycle.Times) (s : Store) :
  let out := cycle.ExecuteCycle cfg plan llmClient ctx cycleID at_ false s in
  requirements (snd out) = requirements s
  /\ map ID (tasks (snd out)) = map ID (tasks s)
  /\ (exists added, artifacts (snd out) = (artifacts s ++ added)%list)
  /\ (forall e, fst out = Err e -> audit_logs (snd out) = audit_logs s)
  /\ (forall e, selection.SelectNext (Selection cfg) s (cycle.tSelect at_) = Err e ->
                out = (Err (Wrapf "task selection failed" e), s))
  /\ (forall sel e,
         selection.SelectNext (Selection cfg) s (cycle.tSelect at_) = Ok sel ->
         cycle.getAgentForTask cfg (selection.Task_ sel) = Err e ->
         out = (Err (Wrapf "failed to get agent for task" e), s))
  /\ (forall r, fst out = Ok r ->
        Success r = true
        /\ exists entry task agent,
             audit_logs (snd out) = (audit_logs s ++ [entry])%list
             /\ In task (tasks s)
             /\ ID task = TaskID r /\ State_ task = PrevState r
             /\ lTaskID entry = TaskID r
             /\ lPrevState entry = PrevState r
             /\ lNextState entry = NextState r
             /\ lCycleID entry = cycleID
             /\ lResult entry = "success"
             /\ lCreatedAt entry = cycle.tAudit at_
             /\ lActor entry = Name agent
             /\ In agent (map snd (Agents cfg))
             /\ In (PrevState r) (AllowedStates agent)).
Proof.
  cbv zeta. unfold cycle.ExecuteCycle, bind, wrapf, query, ret. cbn [negb].
  destruct (selection.SelectNext _ _ _) as [sel|e] eqn:Hsel.
  2:{ cbn [fst snd]. repeat (split; [reflexivity|]).
      split; [exists []; now rewrite app_nil_r|]. split; [reflexivity|].
      split; [now intros e' [= <-]|]. split; [discriminate | discriminate]. }
  destruct (cycle.getAgentForTask cfg _) as [agent|e] eqn:Hagent.
  2:{ cbn [fst snd]. repeat (split; [reflexivity|]).
      split; [exists []; now rewrite app_nil_r|]. split; [reflexivity|].
      split; [discriminate|]. split; [|discriminate].
      intros sel' e' [= <-] He'. rewrite Hagent in He'. now injection He' as <-. }
  assert (Hp : exists prompt,
             cycle.buildPrompt (selection.Task_ sel) agent = Ok prompt)
    by (eexists; reflexivity).
  destruct Hp as [prompt Hp]. rewrite Hp. cbv zeta.
  pose proof (surface_frame_serve cfg plan
                (llm.calls (llmClient prompt (Name agent))) s) as Hfr.
  set (s1 := snd (mcp.serve cfg plan (llm.calls (llmClient prompt (Name agent))) s))
    in *.
  destruct Hfr as (Hreq & Hlogs & Hids & added & Hadded).
  destruct (llm.outcome (llmClient prompt (Name agent))) as [resp|e].
  2:{ cbn [fst snd]. split; [exact Hreq|]. split; [exact Hids|].
      split; [now exists added|]. split; [now intros|].
      split; [discriminate|]. split; [|discriminate].
      intros sel' e' [= <-] He'. rewrite Hagent in He'. discriminate. }
  destruct (cycle.Enforce _ _ _ _ _ s1) as [[h|e] s2] eqn:Henforce.
  2:{ apply Enforce_error_unchanged in Henforce. subst s2.
      cbn [fst snd]. split; [exact Hreq|]. split; [exact Hids|].
      split; [now exists added|]. split; [now intros|].
      split; [discriminate|]. split; [|discriminate].
      intros sel' e' [= <-] He'. rewrite Hagent in He'. discriminate. }
  apply Enforce_quiet in Henforce.
  destruct Henforce as (_ & task1 & Hget1 & Hfinal).
  assert (Hfr2 : surface_frame s1 s2).
  { destruct Hfinal as [(_ & _ & Hup)|(_ & _ & ->)]; [|apply surface_frame_refl].
    injection Hup as <-. apply surface_frame_update. }
  destruct Hfr2 as (Hreq2 & Hlogs2 & Hids2 & added2 & Hadded2).
  assert (Hexists : task_exists s2 (ID (selection.Task_ sel)) = true).
  { rewrite (task_exists_ids s s2) by congruence.
    destruct (SelectNext_selected _ _ _ _ Hsel) as [Hin _].
    unfold task_exists. apply existsb_exists.
    exists (selection.Task_ sel). split; [exact Hin | apply String.eqb_refl]. }
  unfold audit.LogCycle, exec, CreateAuditLog. cbn [lTaskID].
  rewrite Hexists. cbn [negb fst snd].
  split; [cbn; congruence|]. split; [cbn; congruence|].
  split; [exists (added ++ added2)%list; cbn; now rewrite Hadded2, Hadded, app_assoc|].
  split; [discriminate|]. split; [discriminate|].
  split; [intros sel' e' [= <-] He'; rewrite Hagent in He'; discriminate|].
  intros r [= <-]. split; [reflexivity|].
  destruct (SelectNext_selected _ _ _ _ Hsel) as [Hin _].
  destruct (proj1 (getAgentForTask_loop_spec (Agents cfg) (selection.Task_ sel))
              agent Hagent) as [Hag Hallowed].
  eexists. exists (selection.Task_ sel), agent.
  split; [cbn; rewrite Hlogs2, Hlogs; reflexivity|].
  cbn. now repeat split.
Qed.


(** * The status page *)

Lemma put_absent (k : string) (v : int) (m : list (string * int)) :
  ~ In k (map fst m) -> web.put k v m = (m ++ [(k, v)])%list.
Proof.
  induction m as [|[k' v'] m IH]; simpl; [reflexivity|]. intros Hn.
  destruct (String.eqb_spec k' k) as [->|Hne]; [exfalso; apply Hn; now left|].
  rewrite IH; [reflexivity|]. intros Hin. apply Hn. now right.
Qed.

Lemma count_in_states (l : list Task) (st : State) (states : list State) :
  ~ In st states ->
  List.length (filter (fun t => existsb (String.eqb (State_ t)) (st :: states)) l)
  = (List.length (filter (fun t => String.eqb (State_ t) st) l)
     + List.length (filter (fun t => existsb (String.eqb (State_ t)) states) l))%nat.
Proof.
  intros Hn. induction l as [|t l IH]; cbn [filter existsb List.length]; [reflexivity|].
  destruct (String.eqb_spec (State_ t) st) as [Heq|Hne]; cbn [orb].
  - assert (Hout : existsb (String.eqb (State_ t)) states = false).
    { destruct (existsb (String.eqb (State_ t)) states) eqn:He; [|reflexivity].
      apply existsb_exists in He. destruct He as (x & Hx & Hex).
      apply String.eqb_eq in Hex. subst x. rewrite Heq in Hx. contradiction. }
    rewrite Hout. cbn [List.length]. cbn [existsb orb] in IH. rewrite IH. lia.
  - destruct (existsb (String.eqb (State_ t)) states); cbn [List.length];
      cbn [existsb orb] in IH; rewrite IH; lia.
Qed.

(** What the loop of [handleStatus] adds to its two accumulators, as long
    as the total stays in the range of [int]. *)
Lemma count_fold (s : Store) (states : list State) :
  forall acc,
    NoDup states ->
    (forall st, In st states -> ~ In st (map fst (fst acc))) ->
    0 <= snd acc ->
    snd acc
    + Z.of_nat (List.length
                  (filter (fun t => existsb (String.eqb (State_ t)) states) (tasks s)))
    <= max_int ->
    fold_left (web.count_step s) states acc
    = ((fst acc
        ++ map (fun st => (st, Z.of_nat (List.length
                                           (filter (fun t => String.eqb (State_ t) st)
                                                   (tasks s)))))
               states)%list,
       snd acc
       + Z.of_nat (List.length
                     (filter (fun t => existsb (String.eqb (State_ t)) states)
                             (tasks s)))).
Proof.
  induction states as [|st states IH]; intros [m total] Hnd Hfresh H0 Hb;
    cbn [fold_left fst snd map] in *.
  - assert (Hnone : forall l : list Task,
               filter (fun t => existsb (String.eqb (State_ t)) []) l = [])
      by (induction l as [|x l IHl]; cbn; [reflexivity | exact IHl]).
    rewrite Hnone. cbn. now rewrite app_nil_r, Z.add_0_r.
  - apply NoDup_cons_iff in Hnd. destruct Hnd as [Hst Hnd].
    rewrite (count_in_states _ _ _ Hst) in Hb. rewrite (count_in_states _ _ _ Hst).
    assert (Hcount : sqlite.GetTaskCount s (mkTaskFilters (Some st) None None)
                     = Ok (Z.of_nat (List.length
                                       (filter (fun t => String.eqb (State_ t) st)
                                               (tasks s))))).
    { unfold sqlite.GetTaskCount. do 3 f_equal. apply filter_ext. intros t.
      unfold sqlite.matches. cbn. now rewrite !andb_true_r. }
    unfold web.count_step at 2. rewrite Hcount. cbn [fst snd].
    rewrite int_wrap_small by (unfold max_int in *; lia).
    rewrite put_absent by (apply Hfresh; now left).
    rewrite IH; cbn [fst snd].
    + rewrite <- app_assoc. cbn [app]. f_equal. lia.
    + exact Hnd.
    + intros st' Hin. rewrite map_app, in_app_iff. cbn.
      intros [H|[H|[]]]; [apply (Hfresh st'); [now right | exact H]|].
      subst st'. contradiction.
    + lia.
    + lia.
Qed.

(** X27: the counts of the status page.  As long as the number of tasks is
    in the range of [int], [handleStatus] reports one count for each of the
    eleven states, in its order, each the number of tasks stored in that
    state; the total is the number of tasks whose stored state is literally
    one of the eleven, so it is at most the number of tasks, and equals it
    when every task is stored under a state of the enum. *)
Theorem status_page_counts (s : Store) :
  Z.of_nat (List.length (tasks s)) <= max_int ->
  map fst (fst (web.tasks_by_state s)) = web.status_states
  /\ (forall st, In st web.status_states ->
                 sqlite.GetTaskCount s (mkTaskFilters (Some st) None None)
                 = Ok (count_of st (fst (web.tasks_by_state s))))
  /\ snd (web.tasks_by_state s)
     = Z.of_nat (List.length
                   (filter (fun t => existsb (String.eqb (State_ t)) web.status_states)
                           (tasks s)))
  /\ snd (web.tasks_by_state s) <= Z.of_nat (List.length (tasks s))
  /\ ((forall t, In t (tasks s) -> In (State_ t) statemachine.GetAllStates) ->
      snd (web.tasks_by_state s) = Z.of_nat (List.length (tasks s))).
Proof.
  intros Hbound.
  pose proof (filter_length_le (fun t => existsb (String.eqb (State_ t)) web.status_states)
                (fun _ => true) (tasks s) (fun _ _ => eq_refl)) as Hle.
  assert (Hall : forall l : list Task, filter (fun _ => true) l = l).
  { induction l as [|x l IH]; cbn; [reflexivity | now rewrite IH]. }
  rewrite Hall in Hle.
  assert (Hnd : NoDup web.status_states).
  { unfold web.status_states.
    repeat (constructor; [cbn; intros H; decompose [or] H; discriminate || contradiction|]).
    constructor. }
  assert (Hf : web.tasks_by_state s
               = (map (fun st => (st, Z.of_nat (List.length
                                    (filter (fun t => String.eqb (State_ t) st)
                                            (tasks s)))))
                      web.status_states,
                  Z.of_nat (List.length
                              (filter (fun t => existsb (String.eqb (State_ t))
                                                        web.status_states)
                                      (tasks s))))).
  { unfold web.tasks_by_state.
    etransitivity;
      [apply (count_fold s web.status_states ([], 0) Hnd);
       [intros st _ [] | cbn; lia | cbn [snd]; lia]|].
    cbn [fst snd app]. now rewrite Z.add_0_l. }
  rewrite Hf. cbn [fst snd].
  split; [rewrite map_map; cbn [fst]; apply map_id|].
  split.
  { intros st Hin. unfold sqlite.GetTaskCount, count_of.
    assert (Hassoc : forall states : list State,
               In st states ->
               assoc st (map (fun st0 : State => (st0, Z.of_nat (List.length
                          (filter (fun t => String.eqb (State_ t) st0) (tasks s)))))
                          states)
               = Some (Z.of_nat (List.length
                          (filter (fun t => String.eqb (State_ t) st) (tasks s))))).
    { induction states as [|x states IH]; [contradiction|]. cbn [map assoc].
      destruct (String.eqb_spec x st) as [->|Hne]; [reflexivity|].
      intros [H|H]; [contradiction | now apply IH]. }
    destruct (assoc st _) as [n|] eqn:Heq;
      pose proof (eq_trans (eq_sym Heq) (Hassoc _ Hin)) as Hx; [|discriminate].
    injection Hx as ->. do 3 f_equal. apply filter_ext. intros t.
    unfold sqlite.matches. cbn. now rewrite !andb_true_r. }
  split; [reflexivity|]. split; [lia|].
  intros Henum. do 2 f_equal. rewrite <- (Hall (tasks s)) at 2.
  apply filter_ext_in. intros t Ht. specialize (Henum t Ht).
  apply existsb_exists. exists (State_ t). split; [|apply String.eqb_refl].
  cbn in Henum. cbn. tauto.
Qed.

(** The witness of [status_page_counts]. *)
Lemma status_page_counts_witness :
  Z.of_nat (List.length (tasks audited_store)) <= max_int
  /\ snd (web.tasks_by_state audited_store) = 1
  /\ count_of Planning (fst (web.tasks_by_state audited_store)) = 1.
Proof.
  assert (H : Z.of_nat (List.length (tasks audited_store)) <= max_int)
    by (vm_compute; discriminate).
  split; [exact H|].
  destruct (status_page_counts audited_store H) as (_ & _ & Htotal & _).
  split; [rewrite Htotal|]; reflexivity.
Defined.

(** * The requirements *)

(** X28: [ListRequirements] returns exactly the stored requirements of the
    type asked for, all of them when the type is empty, in ascending order
    of their key; the method [baton.requirements.list] answers with this
    list for the type of its parameters and writes nothing. *)
Theorem ListRequirements_ordered (s : Store) (reqType : string) :
  exists l,
    ListRequirements s reqType = Ok l
    /\ (forall r, In r l
                  <-> In r (requirements s) /\ (reqType = "" \/ rType r = reqType))
    /\ Permutation l (filter (fun r => String.eqb reqType ""
                                       || String.eqb (rType r) reqType)
                             (requirements s))
    /\ StronglySorted (fun a b => String.compare (rKey a) (rKey b) <> Gt) l
    /\ (forall id,
           mcp.RequirementHandler.List
             (mcp.mkRequest "baton.requirements.list"
                (JObject [("type", JString reqType)]) id) s
           = (mcp.NewJSONRPCResponse id (mcp.PRequirements l), s)).
Proof.
  eexists. split; [reflexivity|].
  split.
  { intros r. rewrite sort_by_In, filter_In, orb_true_iff, !String.eqb_eq.
    reflexivity. }
  split; [apply sort_by_perm|].
  split; [|reflexivity].
  eapply StronglySorted_weaken; cycle 1.
  - apply (sort_by_sorted (fun a b : Requirement => String.ltb (rKey a) (rKey b))).
    + intros a b H. apply string_ltb_lt in H.
      destruct (String.ltb (rKey b) (rKey a)) eqn:Hba; [|reflexivity].
      apply string_ltb_lt in Hba.
      pose proof (string_compare_trans _ _ _ H Hba) as Hx.
      rewrite string_compare_refl in Hx. discriminate.
    + intros a b c H1 H2.
      destruct (String.ltb (rKey c) (rKey a)) eqn:Hca; [|reflexivity].
      apply string_ltb_lt in Hca. exfalso.
      destruct (String.compare (rKey c) (rKey b)) eqn:Hcb.
      * apply String.compare_eq_iff in Hcb. rewrite Hcb in Hca.
        apply string_ltb_lt in Hca. congruence.
      * apply string_ltb_lt in Hcb. congruence.
      * apply string_compare_gt in Hcb.
        pose proof (string_compare_trans _ _ _ Hcb Hca) as Hx.
        apply string_ltb_lt in Hx. congruence.
  - intros a b H. cbv beta in H. intros Hgt. apply string_compare_gt in Hgt.
    apply string_ltb_lt in Hgt. congruence.
Qed.

(** * Updating a state through the method surface *)



(** The witness of [cycle_audit_trail]: a cycle that succeeds leaves one
    audit row. *)
Lemma cycle_audit_trail_witness :
  let out := cycle.ExecuteCycle patient_config None diligent_agent never_cancelled
               "c1" sample_times false sample_store in
  fst out = Ok (mkCycleResult true "T1" ReadyForPlan Planning [])
  /\ exists entry,
       audit_logs (snd out) = [entry]
       /\ lTaskID entry = "T1" /\ lNextState entry = Planning
       /\ lCreatedAt entry = 400.
Proof.
  cbv zeta.
  assert (Hrun : fst (cycle.ExecuteCycle patient_config None diligent_agent
                        never_cancelled "c1" sample_times false sample_store)
                 = Ok (mkCycleResult true "T1" ReadyForPlan Planning []))
    by reflexivity.
  split; [exact Hrun|].
  destruct (cycle_audit_trail patient_config None diligent_agent never_cancelled
              "c1" sample_times sample_store)
    as (_ & _ & _ & _ & _ & _ & Hok).
  destruct (Hok _ Hrun)
    as (_ & entry & task & agent & Hlogs & _ & _ & _ & Hid & _ & Hnext & _ & _
        & Hat & _).
  exists entry. split; [exact Hlogs|]. split; [exact Hid|].
  split; [exact Hnext | exact Hat].
Defined.
